(** * CallbackNotifier: the camera HAL callback mediator of the emulator

    A shallow embedding of
    [tools/emulator/system/camera/CallbackNotifier.cpp] and the properties
    of its message mask, its frame-rate gate and its frame dispatcher.

    Conventions of the embedding.
    - Fixed-width integers are [Z]; the places where the C++ arithmetic
      leaves the mathematical one are written out ([Int.sub64],
      [Int.not32], [Int.to_int]).
    - Pointers, function pointers included, are addresses in [Z]; [NULL]
      is [0].
    - The object is a record with the fields of the class, in the order of
      the constructor's initialiser list.  Member functions are
      computations of the monad [M]: they read and assign the fields of
      [this], append to the log of calls made into the consumer, and may
      stop in a fault (integer division by zero, a call through a null
      function pointer, a copy past the end of a buffer).  The machine at
      the point of the fault is kept, so that what was assigned before it
      stays visible.
    - [Mutex::Autolock] is not modelled: the embedding is sequential, every
      member function runs to its end before the next one starts.
    - [LOGV]/[LOGE] are diagnostics and the member functions do not thread
      them.  The translation of a message set into names,
      [GetMessageStrings], and the lines [PrintMessages] logs are modelled
      on their own, as functions. *)

From Stdlib Require Import ZArith List Bool Lia String.
From Stdlib Require Import Strings.Byte.
Import ListNotations.
Local Open Scope Z_scope.

(** ** Machine integers *)

Module Int.

Definition in_uint32 (z : Z) : Prop := 0 <= z < 2 ^ 32.
Definition in_int32 (z : Z) : Prop := - 2 ^ 31 <= z < 2 ^ 31.
Definition in_int64 (z : Z) : Prop := - 2 ^ 63 <= z < 2 ^ 63.

(** Two's complement reduction to [w] bits, signed. *)
Definition wrap_signed (w z : Z) : Z :=
  (z + 2 ^ (w - 1)) mod 2 ^ w - 2 ^ (w - 1).

(** [a - b] on [int64_t] (nsecs_t). *)
Definition sub64 (a b : Z) : Z := wrap_signed 64 (a - b).

(** [~x] on [uint32_t]. *)
Definition not32 (x : Z) : Z := Z.land (Z.lnot x) (Z.ones 32).

(** Conversion of a [uint32_t] value to [int]. *)
Definition to_int (x : Z) : Z := wrap_signed 32 x.

End Int.

(** ** Types of the camera HAL *)

Definition pointer := Z.
Definition NULL : pointer := 0.

Definition nsecs_t := Z.
Definition uint32_t := Z.

Definition camera_notify_callback := pointer.
Definition camera_data_callback := pointer.
Definition camera_data_timestamp_callback := pointer.
Definition camera_request_memory := pointer.

(** utils/Errors.h: the status codes this class returns, and the one for a
    bad argument. *)
Inductive status_t : Set := NO_ERROR | BAD_VALUE | INVALID_OPERATION.

(** [camera_memory_t]: [data] is [None] for a null backing store. *)
Record camera_memory_t : Set := mk_camera_memory {
  data : option (list byte);
  size : Z;
  handle : pointer
}.

Definition with_data (m : camera_memory_t) (d : list byte) : camera_memory_t :=
  {| data := Some d; size := size m; handle := handle m |}.

(** The part of [EmulatedCameraDevice] the notifier reads. *)
Record EmulatedCameraDevice : Set := mk_camera_device {
  mFrameBufferSize : Z
}.

Definition getFrameBufferSize (dev : EmulatedCameraDevice) : Z :=
  mFrameBufferSize dev.

(** String representation of camera messages, bit 0 first. *)
Definition lCameraMessages : list string :=
  [ "CAMERA_MSG_ERROR";
    "CAMERA_MSG_SHUTTER";
    "CAMERA_MSG_FOCUS";
    "CAMERA_MSG_ZOOM";
    "CAMERA_MSG_PREVIEW_FRAME";
    "CAMERA_MSG_VIDEO_FRAME";
    "CAMERA_MSG_POSTVIEW_FRAME";
    "CAMERA_MSG_RAW_IMAGE";
    "CAMERA_MSG_COMPRESSED_IMAGE";
    "CAMERA_MSG_RAW_IMAGE_NOTIFY";
    "CAMERA_MSG_PREVIEW_METADATA" ]%string.

Definition lCameraMessagesNum : Z := Z.of_nat (List.length lCameraMessages).

(** Modelled from the spec: the value of the constant
    [CAMERA_MSG_VIDEO_FRAME], declared in a header outside this file.  The
    message kinds are one bit each in the fixed order error, shutter, focus,
    zoom, preview-frame, video-frame, ...; the video frame is bit 5, which is
    also its index in [lCameraMessages]. *)
Definition CAMERA_MSG_VIDEO_FRAME : Z := Z.shiftl 1 5.

(** ** The object *)

Record CallbackNotifier : Set := mkCallbackNotifier {
  mNotifyCB : camera_notify_callback;
  mDataCB : camera_data_callback;
  mDataCBTimestamp : camera_data_timestamp_callback;
  mGetMemoryCB : camera_request_memory;
  mCBOpaque : pointer;
  mLastFrameTimestamp : nsecs_t;
  mFrameRefreshFreq : nsecs_t;
  mMessageEnabler : uint32_t;
  mVideoRecEnabled : bool
}.

Definition set_mNotifyCB (v : camera_notify_callback) (o : CallbackNotifier) :=
  mkCallbackNotifier v (mDataCB o) (mDataCBTimestamp o) (mGetMemoryCB o)
    (mCBOpaque o) (mLastFrameTimestamp o) (mFrameRefreshFreq o)
    (mMessageEnabler o) (mVideoRecEnabled o).

Definition set_mDataCB (v : camera_data_callback) (o : CallbackNotifier) :=
  mkCallbackNotifier (mNotifyCB o) v (mDataCBTimestamp o) (mGetMemoryCB o)
    (mCBOpaque o) (mLastFrameTimestamp o) (mFrameRefreshFreq o)
    (mMessageEnabler o) (mVideoRecEnabled o).

Definition set_mDataCBTimestamp (v : camera_data_timestamp_callback)
    (o : CallbackNotifier) :=
  mkCallbackNotifier (mNotifyCB o) (mDataCB o) v (mGetMemoryCB o)
    (mCBOpaque o) (mLastFrameTimestamp o) (mFrameRefreshFreq o)
    (mMessageEnabler o) (mVideoRecEnabled o).

Definition set_mGetMemoryCB (v : camera_request_memory) (o : CallbackNotifier) :=
  mkCallbackNotifier (mNotifyCB o) (mDataCB o) (mDataCBTimestamp o) v
    (mCBOpaque o) (mLastFrameTimestamp o) (mFrameRefreshFreq o)
    (mMessageEnabler o) (mVideoRecEnabled o).

Definition set_mCBOpaque (v : pointer) (o : CallbackNotifier) :=
  mkCallbackNotifier (mNotifyCB o) (mDataCB o) (mDataCBTimestamp o)
    (mGetMemoryCB o) v (mLastFrameTimestamp o) (mFrameRefreshFreq o)
    (mMessageEnabler o) (mVideoRecEnabled o).

Definition set_mLastFrameTimestamp (v : nsecs_t) (o : CallbackNotifier) :=
  mkCallbackNotifier (mNotifyCB o) (mDataCB o) (mDataCBTimestamp o)
    (mGetMemoryCB o) (mCBOpaque o) v (mFrameRefreshFreq o)
    (mMessageEnabler o) (mVideoRecEnabled o).

Definition set_mFrameRefreshFreq (v : nsecs_t) (o : CallbackNotifier) :=
  mkCallbackNotifier (mNotifyCB o) (mDataCB o) (mDataCBTimestamp o)
    (mGetMemoryCB o) (mCBOpaque o) (mLastFrameTimestamp o) v
    (mMessageEnabler o) (mVideoRecEnabled o).

Definition set_mMessageEnabler (v : uint32_t) (o : CallbackNotifier) :=
  mkCallbackNotifier (mNotifyCB o) (mDataCB o) (mDataCBTimestamp o)
    (mGetMemoryCB o) (mCBOpaque o) (mLastFrameTimestamp o)
    (mFrameRefreshFreq o) v (mVideoRecEnabled o).

Definition set_mVideoRecEnabled (v : bool) (o : CallbackNotifier) :=
  mkCallbackNotifier (mNotifyCB o) (mDataCB o) (mDataCBTimestamp o)
    (mGetMemoryCB o) (mCBOpaque o) (mLastFrameTimestamp o)
    (mFrameRefreshFreq o) (mMessageEnabler o) v.

(** ** Calls into the consumer *)

(** One entry of the log per call made through a registered function
    pointer, with the arguments passed. *)
Inductive call : Set :=
| GetMemory (fn : camera_request_memory)
    (fd buf_size num_bufs : Z) (user : pointer)
| DataTimestamp (fn : camera_data_timestamp_callback)
    (timestamp : nsecs_t) (msg_type : Z) (mem : camera_memory_t)
    (index : Z) (user : pointer).

(** The consumer's allocator: what the function at address [fn] returns on
    the given arguments, after the calls made so far.  [None] is a null
    [camera_memory_t*]. *)
Record Consumer : Type := mk_consumer {
  request_memory :
    camera_request_memory -> list call -> Z -> Z -> Z -> pointer ->
    option camera_memory_t
}.

Definition is_GetMemory (c : call) : bool :=
  match c with GetMemory _ _ _ _ _ => true | _ => false end.

Definition is_DataTimestamp (c : call) : bool :=
  match c with DataTimestamp _ _ _ _ _ _ => true | _ => false end.

Definition allocator_calls (l : list call) : nat :=
  List.length (filter is_GetMemory l).

Definition data_callbacks (l : list call) : nat :=
  List.length (filter is_DataTimestamp l).

(** Timestamps of the frames handed to the timestamped-data callback. *)
Fixpoint delivered (l : list call) : list nsecs_t :=
  match l with
  | [] => []
  | DataTimestamp _ ts _ _ _ _ :: l' => ts :: delivered l'
  | _ :: l' => delivered l'
  end.

(** ** The monad of member functions *)

Inductive fault : Set := DivideByZero | NullFunctionCall | OutOfBounds.

Inductive outcome (A : Type) : Type :=
| Returns (a : A)
| Faults (f : fault).
Arguments Returns {A} a.
Arguments Faults {A} f.

Record Machine : Set := mk_machine {
  this : CallbackNotifier;
  calls : list call
}.

Definition M (A : Type) : Type := Machine -> outcome A * Machine.

Definition ret {A} (a : A) : M A := fun m => (Returns a, m).

Definition bind {A B} (c : M A) (k : A -> M B) : M B :=
  fun m =>
    match c m with
    | (Returns a, m') => k a m'
    | (Faults f, m') => (Faults f, m')
    end.

Definition raise {A} (f : fault) : M A := fun m => (Faults f, m).

Definition read {A} (field : CallbackNotifier -> A) : M A :=
  fun m => (Returns (field (this m)), m).

Definition assign (upd : CallbackNotifier -> CallbackNotifier) : M unit :=
  fun m => (Returns tt, mk_machine (upd (this m)) (calls m)).

Definition history : M (list call) := fun m => (Returns (calls m), m).

Definition log (c : call) : M unit :=
  fun m => (Returns tt, mk_machine (this m) (calls m ++ [c])).

Declare Scope member_scope.
Delimit Scope member_scope with member.
Notation "x <- c ;; k" := (bind c (fun x => k))
  (at level 61, c at next level, right associativity) : member_scope.
Notation "c ;; k" := (bind c (fun _ => k))
  (at level 61, right associativity) : member_scope.
Local Open Scope member_scope.

Definition run {A} (c : M A) (m : Machine) : outcome A * Machine := c m.
Definition result {A} (c : M A) (m : Machine) : outcome A := fst (c m).
Definition after {A} (c : M A) (m : Machine) : Machine := snd (c m).

(** [a / b] on [long long]: truncation towards zero, undefined for [b = 0]. *)
Definition div64 (a b : Z) : M Z :=
  if b =? 0 then raise DivideByZero else ret (Z.quot a b).

(** [memcpy(dst, src, n)]: the first [n] bytes of [dst] become those of
    [src]; both must hold [n] bytes. *)
Definition memcpy (dst src : list byte) (n : Z) : M (list byte) :=
  if (n <=? Z.of_nat (List.length src)) && (n <=? Z.of_nat (List.length dst)) then
    ret (firstn (Z.to_nat n) src ++ skipn (Z.to_nat n) dst)
  else raise OutOfBounds.

(** [mGetMemoryCB(fd, buf_size, num_bufs, user)]. *)
Definition call_mGetMemoryCB (consumer : Consumer)
    (fd buf_size num_bufs : Z) (user : pointer) : M (option camera_memory_t) :=
  fn <- read mGetMemoryCB ;;
  if fn =? NULL then raise NullFunctionCall
  else
    before <- history ;;
    log (GetMemory fn fd buf_size num_bufs user) ;;
    ret (request_memory consumer fn before fd buf_size num_bufs user).

(** [mDataCBTimestamp(timestamp, msg_type, mem, index, user)]. *)
Definition call_mDataCBTimestamp (timestamp : nsecs_t) (msg_type : Z)
    (mem : camera_memory_t) (index : Z) (user : pointer) : M unit :=
  fn <- read mDataCBTimestamp ;;
  if fn =? NULL then raise NullFunctionCall
  else log (DataTimestamp fn timestamp msg_type mem index user).

(** ** Member functions *)

(** [CallbackNotifier::CallbackNotifier()]. *)
Definition CallbackNotifier_ctor : CallbackNotifier :=
  {| mNotifyCB := NULL;
     mDataCB := NULL;
     mDataCBTimestamp := NULL;
     mGetMemoryCB := NULL;
     mCBOpaque := NULL;
     mLastFrameTimestamp := 0;
     mFrameRefreshFreq := 0;
     mMessageEnabler := 0;
     mVideoRecEnabled := false |}.

Definition setCallbacks (notify_cb : camera_notify_callback)
    (data_cb : camera_data_callback)
    (data_cb_timestamp : camera_data_timestamp_callback)
    (get_memory : camera_request_memory) (user : pointer) : M unit :=
  assign (set_mNotifyCB notify_cb) ;;
  assign (set_mDataCB data_cb) ;;
  assign (set_mDataCBTimestamp data_cb_timestamp) ;;
  assign (set_mGetMemoryCB get_memory) ;;
  assign (set_mCBOpaque user).

Definition enableMessage (msg_type : Z) : M unit :=
  mask <- read mMessageEnabler ;;
  assign (set_mMessageEnabler (Z.lor mask msg_type)).

Definition disableMessage (msg_type : Z) : M unit :=
  mask <- read mMessageEnabler ;;
  assign (set_mMessageEnabler (Z.land mask (Int.not32 msg_type))).

Definition isMessageEnabled (msg_type : Z) : M Z :=
  mask <- read mMessageEnabler ;;
  ret (Int.to_int (Z.land mask (Int.not32 msg_type))).

Definition enableVideoRecording (fps : Z) : M status_t :=
  assign (set_mVideoRecEnabled true) ;;
  assign (set_mLastFrameTimestamp 0) ;;
  freq <- div64 1000000000 fps ;;
  assign (set_mFrameRefreshFreq freq) ;;
  ret NO_ERROR.

Definition disableVideoRecording : M unit :=
  assign (set_mVideoRecEnabled false) ;;
  assign (set_mLastFrameTimestamp 0) ;;
  assign (set_mFrameRefreshFreq 0).

Definition isVideoRecordingEnabled : M bool :=
  read mVideoRecEnabled.

Definition releaseRecordingFrame (opaque : pointer) : M unit :=
  ret tt.

Definition storeMetaDataInBuffers (enable : bool) : M status_t :=
  ret INVALID_OPERATION.

Definition cleanupCBNotifier : M unit :=
  assign (set_mMessageEnabler 0) ;;
  assign (set_mNotifyCB NULL) ;;
  assign (set_mDataCB NULL) ;;
  assign (set_mDataCBTimestamp NULL) ;;
  assign (set_mGetMemoryCB NULL) ;;
  assign (set_mCBOpaque NULL) ;;
  assign (set_mLastFrameTimestamp 0) ;;
  assign (set_mFrameRefreshFreq 0) ;;
  assign (set_mVideoRecEnabled false).

Definition isNewVideoFrameTime (timestamp : nsecs_t) : M bool :=
  last <- read mLastFrameTimestamp ;;
  freq <- read mFrameRefreshFreq ;;
  if Int.sub64 timestamp last >=? freq then
    assign (set_mLastFrameTimestamp timestamp) ;;
    ret true
  else ret false.

(** The first three operands of the [&&] chain of [onNextFrameAvailable];
    the fourth, [isNewVideoFrameTime], is only evaluated when these hold. *)
Definition video_frame_wanted (o : CallbackNotifier) : bool :=
  negb (Z.land (mMessageEnabler o) CAMERA_MSG_VIDEO_FRAME =? 0)
  && negb (mDataCBTimestamp o =? NULL)
  && mVideoRecEnabled o.

Definition onNextFrameAvailable (consumer : Consumer) (frame : list byte)
    (timestamp : nsecs_t) (camera_dev : EmulatedCameraDevice) : M unit :=
  wanted <- read video_frame_wanted ;;
  if wanted then
    is_new <- isNewVideoFrameTime timestamp ;;
    if is_new then
      cam_buff <- call_mGetMemoryCB consumer
                    (-1) (getFrameBufferSize camera_dev) 1 NULL ;;
      match cam_buff with
      | Some buff =>
          match data buff with
          | Some bytes =>
              copied <- memcpy bytes frame (getFrameBufferSize camera_dev) ;;
              user <- read mCBOpaque ;;
              call_mDataCBTimestamp timestamp CAMERA_MSG_VIDEO_FRAME
                (with_data buff copied) 0 user
          | None => ret tt
          end
      | None => ret tt
      end
    else ret tt
  else ret tt.

(** A freshly constructed object that has made no call yet. *)
Definition fresh : Machine := mk_machine CallbackNotifier_ctor [].

(** ** Names of the messages *)

(** [strings[out] = v] on the caller's array.  A store past the end of
    the array is undefined in C++: it has no result here. *)
Fixpoint store (strings : list string) (out : nat) (v : string)
    : option (list string) :=
  match strings, out with
  | [], _ => None
  | _ :: rest, O => Some (v :: rest)
  | s :: rest, S out' =>
      match store rest out' v with
      | Some rest' => Some (s :: rest')
      | None => None
      end
  end.

(** The inner [while] of [GetMessageStrings]: shift [msg] right until its
    lowest bit is set or the table is exhausted.  [fuel] bounds the number
    of iterations. *)
Fixpoint skip_clear_bits (fuel : nat) (msg index : Z) : option (Z * Z) :=
  if (Z.land msg 1 =? 0) && (index <? lCameraMessagesNum) then
    match fuel with
    | O => None
    | S fuel' => skip_clear_bits fuel' (Z.shiftr msg 1) (index + 1)
    end
  else Some (msg, index).

(** The outer [while] of [GetMessageStrings], from the state
    [(msg, index, out)] and the array [strings]. *)
Fixpoint GetMessageStrings_loop (fuel : nat) (msg : Z) (strings : list string)
    (max index out : Z) : option (Z * list string) :=
  if negb (msg =? 0) && (out <? max) && (index <? lCameraMessagesNum) then
    match fuel with
    | O => None
    | S fuel' =>
        match skip_clear_bits fuel msg index with
        | None => None
        | Some (msg1, index1) =>
            if negb (Z.land msg1 1 =? 0) && (index1 <? lCameraMessagesNum) then
              match store strings (Z.to_nat out)
                      (nth (Z.to_nat index1) lCameraMessages EmptyString) with
              | None => None
              | Some strings1 =>
                  GetMessageStrings_loop fuel' (Z.shiftr msg1 1) strings1
                    max (index1 + 1) (out + 1)
              end
            else GetMessageStrings_loop fuel' msg1 strings max index1 out
        end
    end
  else Some (out, strings).

(** [GetMessageStrings(msg, strings, max)]: the number of strings saved and
    the array afterwards.  Every iteration of either loop moves [index] up,
    so one unit of fuel per table entry is enough: there is no result only
    when a store falls past the end of the array ([GetMessageStrings_overrun]). *)
Definition GetMessageStrings (msg : Z) (strings : list string) (max : Z)
    : option (Z * list string) :=
  GetMessageStrings_loop (List.length lCameraMessages) msg strings max 0 0.

(** [PrintMessages(msg)]: the lines handed to [LOGV], in order.  [strs] is
    what the uninitialised stack array holds on entry. *)
Definition PrintMessages (strs : list string) (msg : Z) : option (list string) :=
  match GetMessageStrings msg strs lCameraMessagesNum with
  | Some (translated, strs') =>
      Some (map (fun n => String.append "    " (nth n strs' EmptyString))
              (seq 0 (Z.to_nat translated)))
  | None => None
  end.

(** ** Vocabulary of the properties *)

(** What the requested-bits test of the mask should compute:
    [(mask & bits) == bits]. *)
Definition all_bits_set (mask bits : Z) : bool := Z.land mask bits =? bits.

(** The query as a truth value: C++ converts the returned [int] by
    comparing it with zero. *)
Definition answers_true (r : outcome Z) : Prop :=
  exists v, r = Returns v /\ v <> 0.

(** What C3 asks of a call with a non-positive rate: an argument error and
    an untouched object. *)
Definition rejects_rate (fps : Z) (m : Machine) : Prop :=
  result (enableVideoRecording fps) m = Returns BAD_VALUE
  /\ after (enableVideoRecording fps) m = m.

(** No callback set is installed: all four slots are null. *)
Definition no_callback_set (o : CallbackNotifier) : Prop :=
  mNotifyCB o = NULL /\ mDataCB o = NULL
  /\ mDataCBTimestamp o = NULL /\ mGetMemoryCB o = NULL.

Definition camera_4096 : EmulatedCameraDevice := mk_camera_device 4096.

(** Install a callback set, enable the video-frame message, start recording
    at 30 frames per second, then offer three frames of a 4096-byte frame
    buffer, stamped 0, 10000000 and 40000000. *)
Definition recording_scenario (consumer : Consumer)
    (notify_cb data_cb data_cb_timestamp get_memory user : pointer)
    (frame0 frame1 frame2 : list byte) : M unit :=
  setCallbacks notify_cb data_cb data_cb_timestamp get_memory user ;;
  enableMessage CAMERA_MSG_VIDEO_FRAME ;;
  enableVideoRecording 30 ;;
  onNextFrameAvailable consumer frame0 0 camera_4096 ;;
  onNextFrameAvailable consumer frame1 10000000 camera_4096 ;;
  onNextFrameAvailable consumer frame2 40000000 camera_4096.

(** A consumer whose allocator always hands out zeroed storage of the
    requested size. *)
Definition zeroing_consumer : Consumer :=
  mk_consumer (fun _ _ _ buf_size _ _ =>
    Some (mk_camera_memory (Some (repeat x00 (Z.to_nat buf_size))) buf_size 0)).

(** The names a message set selects from a table: one name per set bit,
    lowest bit first. *)
Fixpoint names_of (table : list string) (msg : Z) : list string :=
  match table with
  | [] => []
  | name :: rest =>
      (if Z.odd msg then [name] else []) ++ names_of rest (Z.shiftr msg 1)
  end.

(** The part of the table from entry [index] on. *)
Definition table_from (index : Z) : list string :=
  skipn (Z.to_nat index) lCameraMessages.

(** Successive stores of [w] from position [out] on. *)
Fixpoint store_seq (strings : list string) (out : nat) (w : list string)
    : option (list string) :=
  match w with
  | [] => Some strings
  | v :: w' =>
      match store strings out v with
      | Some strings' => store_seq strings' (S out) w'
      | None => None
      end
  end.

(** The count and the array [GetMessageStrings] returns once the names [w]
    have been stored from position [out] on. *)
Definition saved_from (strings : list string) (out : Z) (w : list string)
    : option (Z * list string) :=
  match store_seq strings (Z.to_nat out) w with
  | Some strings' => Some (out + Z.of_nat (List.length w), strings')
  | None => None
  end.

(** The producer's loop: one call of the dispatcher per captured frame. *)
Fixpoint onFrames (consumer : Consumer) (camera_dev : EmulatedCameraDevice)
    (frames : list (list byte * nsecs_t)) : M unit :=
  match frames with
  | [] => ret tt
  | (frame, timestamp) :: rest =>
      onNextFrameAvailable consumer frame timestamp camera_dev ;;
      onFrames consumer camera_dev rest
  end.

(** Consecutive entries of [l] are at least [d] apart, the first one from
    [ref]. *)
Fixpoint spaced (d ref : Z) (l : list Z) : Prop :=
  match l with
  | [] => True
  | t :: l' => t - ref >= d /\ spaced d t l'
  end.

(** A timestamp of a monotonic clock: non-negative and in [nsecs_t]. *)
Definition clock_value (t : Z) : Prop := 0 <= t < 2 ^ 63.

(** What the allocator returned cannot take a frame: a null pointer, or a
    buffer whose storage is null. *)
Definition no_storage (r : option camera_memory_t) : Prop :=
  match r with
  | None => True
  | Some buff => data buff = None
  end.

(** The fields hold values of their C++ types. *)
Definition well_typed (o : CallbackNotifier) : Prop :=
  Int.in_uint32 (mMessageEnabler o)
  /\ Int.in_int64 (mLastFrameTimestamp o)
  /\ Int.in_int64 (mFrameRefreshFreq o).

(** The only calls the dispatcher of object [o] may make for a device. *)
Definition dispatcher_call (o : CallbackNotifier)
    (camera_dev : EmulatedCameraDevice) (c : call) : Prop :=
  match c with
  | GetMemory fn fd buf_size num_bufs user =>
      fn = mGetMemoryCB o /\ fn <> NULL /\ fd = -1
      /\ buf_size = getFrameBufferSize camera_dev
      /\ num_bufs = 1 /\ user = NULL
  | DataTimestamp fn _ msg_type _ index user =>
      fn = mDataCBTimestamp o /\ fn <> NULL
      /\ msg_type = CAMERA_MSG_VIDEO_FRAME
      /\ index = 0 /\ user = mCBOpaque o
  end.

(** ** Proof steps *)

Ltac member_unfold :=
  unfold run, result, after, bind, ret, raise, read, assign, history, log.

Ltac split_tests :=
  repeat (match goal with
          | |- context [if ?c then _ else _] => destruct c eqn:?
          | |- context [match ?x with _ => _ end] => destruct x eqn:?
          end; simpl).

(** * Properties *)

(** ** Arithmetic of the machine integers *)

Lemma wrap_signed_small (w z : Z) :
  0 < w -> - 2 ^ (w - 1) <= z < 2 ^ (w - 1) -> Int.wrap_signed w z = z.
Proof.
  intros Hw Hz. unfold Int.wrap_signed.
  assert (E : 2 ^ w = 2 * 2 ^ (w - 1)).
  { replace w with (Z.succ (w - 1)) at 1 by lia. apply Z.pow_succ_r. lia. }
  rewrite E. set (p := 2 ^ (w - 1)) in *.
  rewrite Z.mod_small; lia.
Qed.

(** The subtraction of [nsecs_t] is the mathematical one whenever the
    difference fits in 64 bits. *)
Lemma sub64_exact (a b : Z) : Int.in_int64 (a - b) -> Int.sub64 a b = a - b.
Proof.
  intros H. unfold Int.sub64. apply wrap_signed_small; [lia | exact H].
Qed.

Lemma sub64_zero (a : Z) : Int.in_int64 a -> Int.sub64 a 0 = a.
Proof.
  intros H. rewrite sub64_exact; rewrite Z.sub_0_r; trivial.
Qed.

Lemma to_int_zero (x : Z) : Int.in_uint32 x -> (Int.to_int x = 0 <-> x = 0).
Proof.
  unfold Int.in_uint32, Int.to_int, Int.wrap_signed.
  change (2 ^ (32 - 1)) with 2147483648. change (2 ^ 32) with 4294967296.
  intros Hx. destruct (Z.lt_ge_cases x 2147483648) as [Hlo | Hhi].
  - rewrite Z.mod_small by lia. lia.
  - assert (E : (x + 2147483648) mod 4294967296 = x - 2147483648).
    { symmetry. apply Z.mod_unique with 1; lia. }
    rewrite E. lia.
Qed.

Lemma not32_spec (x i : Z) :
  0 <= i -> Z.testbit (Int.not32 x) i = negb (Z.testbit x i) && (i <? 32).
Proof.
  intros Hi. unfold Int.not32.
  rewrite Z.land_spec, Z.lnot_spec, Z.testbit_ones_nonneg by lia.
  reflexivity.
Qed.

Lemma uint32_high_bits (x i : Z) :
  Int.in_uint32 x -> 32 <= i -> Z.testbit x i = false.
Proof.
  intros [H0 H1] Hi.
  destruct (Z.eq_dec x 0) as [-> | Hx]; [apply Z.bits_0 |].
  apply Z.bits_above_log2; [lia |].
  apply Z.log2_lt_pow2; [lia |].
  apply Z.lt_le_trans with (2 ^ 32); [exact H1 |].
  apply Z.pow_le_mono_r; lia.
Qed.

Lemma video_frame_bit (x : Z) :
  Z.land x CAMERA_MSG_VIDEO_FRAME = 0 <-> Z.testbit x 5 = false.
Proof.
  change CAMERA_MSG_VIDEO_FRAME with (2 ^ 5). split; intros H.
  - assert (B : Z.testbit (Z.land x (2 ^ 5)) 5 = false) by (rewrite H; apply Z.bits_0).
    rewrite Z.land_spec, Z.pow2_bits_true, andb_true_r in B by lia. exact B.
  - apply Z.bits_inj'. intros i Hi. rewrite Z.land_spec, Z.bits_0.
    destruct (Z.eq_dec i 5) as [-> | Hne].
    + rewrite H. reflexivity.
    + rewrite Z.pow2_bits_false by lia. apply andb_false_r.
Qed.

(** ** Running member functions *)

Lemma result_run {A} (c : M A) (m : Machine) : result c m = fst (run c m).
Proof. reflexivity. Qed.

Lemma after_run {A} (c : M A) (m : Machine) : after c m = snd (run c m).
Proof. reflexivity. Qed.

Lemma run_enableMessage (b : Z) (m : Machine) :
  run (enableMessage b) m =
  (Returns tt,
   mk_machine (set_mMessageEnabler (Z.lor (mMessageEnabler (this m)) b) (this m))
     (calls m)).
Proof. reflexivity. Qed.

Lemma run_disableMessage (b : Z) (m : Machine) :
  run (disableMessage b) m =
  (Returns tt,
   mk_machine
     (set_mMessageEnabler (Z.land (mMessageEnabler (this m)) (Int.not32 b)) (this m))
     (calls m)).
Proof. reflexivity. Qed.

Lemma run_isMessageEnabled (bits : Z) (m : Machine) :
  run (isMessageEnabled bits) m =
  (Returns (Int.to_int (Z.land (mMessageEnabler (this m)) (Int.not32 bits))), m).
Proof. reflexivity. Qed.

(** What the query really answers: true exactly when some enabled bit lies
    outside the requested ones. *)
Lemma isMessageEnabled_answers (bits : Z) (m : Machine) :
  Int.in_uint32 (mMessageEnabler (this m)) ->
  (answers_true (result (isMessageEnabled bits) m)
   <-> Z.land (mMessageEnabler (this m)) (Int.not32 bits) <> 0).
Proof.
  intros Hmask. rewrite result_run, run_isMessageEnabled. cbn [fst].
  assert (R : Int.in_uint32 (Z.land (mMessageEnabler (this m)) (Int.not32 bits))).
  { unfold Int.not32, Int.in_uint32.
    rewrite Z.land_assoc, Z.land_ones by lia.
    apply Z.mod_pos_bound. reflexivity. }
  split.
  - intros [v [E Hv]] Z0. injection E as <-. apply Hv.
    apply (proj2 (to_int_zero _ R)). exact Z0.
  - intros Hne. eexists. split; [reflexivity |].
    intros Z0. apply Hne. apply (proj1 (to_int_zero _ R)). exact Z0.
Qed.

Lemma run_isNewVideoFrameTime (timestamp : Z) (m : Machine) :
  run (isNewVideoFrameTime timestamp) m =
  if Int.sub64 timestamp (mLastFrameTimestamp (this m))
       >=? mFrameRefreshFreq (this m)
  then (Returns true,
        mk_machine (set_mLastFrameTimestamp timestamp (this m)) (calls m))
  else (Returns false, m).
Proof.
  unfold isNewVideoFrameTime. member_unfold. simpl.
  destruct (_ >=? _); reflexivity.
Qed.

Lemma run_enableVideoRecording (fps : Z) (m : Machine) :
  fps <> 0 ->
  run (enableVideoRecording fps) m =
  (Returns NO_ERROR,
   mk_machine
     (set_mFrameRefreshFreq (Z.quot 1000000000 fps)
        (set_mLastFrameTimestamp 0 (set_mVideoRecEnabled true (this m))))
     (calls m)).
Proof.
  intros Hfps. unfold enableVideoRecording, div64. member_unfold. simpl.
  destruct (Z.eqb_spec fps 0) as [E | _]; [contradiction | reflexivity].
Qed.

(** A zero rate stops in the division, after the first two assignments. *)
Lemma run_enableVideoRecording_zero (m : Machine) :
  run (enableVideoRecording 0) m =
  (Faults DivideByZero,
   mk_machine (set_mLastFrameTimestamp 0 (set_mVideoRecEnabled true (this m)))
     (calls m)).
Proof. reflexivity. Qed.

Lemma run_cleanupCBNotifier (m : Machine) :
  run cleanupCBNotifier m =
  (Returns tt, mk_machine CallbackNotifier_ctor (calls m)).
Proof. reflexivity. Qed.

(** The dispatcher does nothing at all when one of the first three operands
    of its condition fails. *)
Lemma onNextFrameAvailable_unwanted consumer frame timestamp camera_dev m :
  video_frame_wanted (this m) = false ->
  run (onNextFrameAvailable consumer frame timestamp camera_dev) m =
  (Returns tt, m).
Proof.
  intros H. unfold onNextFrameAvailable. member_unfold. simpl.
  rewrite H. reflexivity.
Qed.

(** Nor when the gate rejects the timestamp. *)
Lemma onNextFrameAvailable_rejected consumer frame timestamp camera_dev m :
  (Int.sub64 timestamp (mLastFrameTimestamp (this m))
     >=? mFrameRefreshFreq (this m)) = false ->
  run (onNextFrameAvailable consumer frame timestamp camera_dev) m =
  (Returns tt, m).
Proof.
  intros H. unfold onNextFrameAvailable.
  unfold run, bind at 1, read at 1. simpl.
  destruct (video_frame_wanted (this m)); [| reflexivity].
  unfold bind at 1. fold (run (isNewVideoFrameTime timestamp) m).
  rewrite run_isNewVideoFrameTime, H. reflexivity.
Qed.

(** ** The message mask *)

(** C1.  [isMessageEnabled] does not compute [(mask & bits) == bits]: it
    returns [mask & ~bits].  With only the video-frame bit enabled, asking
    for that bit answers 0 (false) although all requested bits are set;
    with only the error bit enabled, asking for the video-frame bit answers
    1 (true) although the requested bit is clear. *)
Theorem isMessageEnabled_complements_request :
  let video_only := after (enableMessage CAMERA_MSG_VIDEO_FRAME) fresh in
  let error_only := after (enableMessage 1) fresh in
  (all_bits_set (mMessageEnabler (this video_only)) CAMERA_MSG_VIDEO_FRAME = true
   /\ result (isMessageEnabled CAMERA_MSG_VIDEO_FRAME) video_only = Returns 0
   /\ ~ answers_true (result (isMessageEnabled CAMERA_MSG_VIDEO_FRAME) video_only))
  /\
  (all_bits_set (mMessageEnabler (this error_only)) CAMERA_MSG_VIDEO_FRAME = false
   /\ result (isMessageEnabled CAMERA_MSG_VIDEO_FRAME) error_only = Returns 1
   /\ answers_true (result (isMessageEnabled CAMERA_MSG_VIDEO_FRAME) error_only)).
Proof.
  cbv zeta. repeat split; try reflexivity.
  - intros [v [E Hv]]. vm_compute in E. injection E as <-. apply Hv. reflexivity.
  - exists 1. split; [reflexivity | discriminate].
Qed.

(** C7, as stated, fails: a bit of [b] that was set before [enableMessage b]
    is cleared by [disableMessage b]. *)
Lemma enable_disable_clears_prior_bit :
  let before := after (enableMessage CAMERA_MSG_VIDEO_FRAME) fresh in
  let b := CAMERA_MSG_VIDEO_FRAME in
  mMessageEnabler (this before) = 32
  /\ mMessageEnabler
       (this (after (disableMessage b) (after (enableMessage b) before))) = 0
  /\ mMessageEnabler
       (this (after (disableMessage b) (after (enableMessage b) before)))
     <> mMessageEnabler (this before).
Proof.
  cbv zeta. repeat split. vm_compute. discriminate.
Qed.

(** C7, amended.  [enableMessage b] then [disableMessage b] leaves
    [mask & ~b]: the mask is back at its value from before the two calls
    exactly when no bit of [b] was set in it, and in every case neither call
    changes a bit outside [b]. *)
Theorem enable_then_disable_mask (m : Machine) (b : Z) :
  Int.in_uint32 (mMessageEnabler (this m)) ->
  let mask := mMessageEnabler (this m) in
  let m1 := after (enableMessage b) m in
  let m2 := after (disableMessage b) m1 in
  result (enableMessage b) m = Returns tt
  /\ result (disableMessage b) m1 = Returns tt
  /\ mMessageEnabler (this m2) = Z.land mask (Int.not32 b)
  /\ (mMessageEnabler (this m2) = mask <-> Z.land mask b = 0)
  /\ (forall i, Z.testbit b i = false ->
        Z.testbit (mMessageEnabler (this m1)) i = Z.testbit mask i
        /\ Z.testbit (mMessageEnabler (this m2)) i = Z.testbit mask i).
Proof.
  intros Hmask mask m1 m2.
  assert (E1 : mMessageEnabler (this m1) = Z.lor mask b) by reflexivity.
  assert (E2 : mMessageEnabler (this m2) = Z.land (Z.lor mask b) (Int.not32 b))
    by reflexivity.
  assert (B2 : forall i, 0 <= i ->
            Z.testbit (mMessageEnabler (this m2)) i
            = Z.testbit mask i && negb (Z.testbit b i)).
  { intros i Hi. rewrite E2, Z.land_spec, Z.lor_spec, not32_spec by exact Hi.
    destruct (Z.ltb_spec i 32) as [Hlt | Hge].
    - destruct (Z.testbit mask i), (Z.testbit b i); reflexivity.
    - rewrite (uint32_high_bits mask i Hmask Hge).
      destruct (Z.testbit b i); reflexivity. }
  split; [reflexivity |]. split; [reflexivity |].
  split; [| split].
  - apply Z.bits_inj'. intros i Hi.
    rewrite B2, Z.land_spec, not32_spec by exact Hi.
    destruct (Z.ltb_spec i 32) as [Hlt | Hge].
    + rewrite andb_true_r. reflexivity.
    + rewrite (uint32_high_bits mask i Hmask Hge). reflexivity.
  - split; intros H.
    + apply Z.bits_inj'. intros i Hi.
      rewrite Z.land_spec, Z.bits_0.
      assert (B : Z.testbit (mMessageEnabler (this m2)) i = Z.testbit mask i)
        by (rewrite H; reflexivity).
      rewrite B2 in B by exact Hi.
      destruct (Z.testbit mask i), (Z.testbit b i); try reflexivity; discriminate.
    + apply Z.bits_inj'. intros i Hi. rewrite B2 by exact Hi.
      assert (B : Z.testbit (Z.land mask b) i = false)
        by (rewrite H; apply Z.bits_0).
      rewrite Z.land_spec in B.
      destruct (Z.testbit mask i), (Z.testbit b i); try reflexivity; discriminate.
  - intros i Hb. split.
    + rewrite E1, Z.lor_spec, Hb. apply orb_false_r.
    + destruct (Z.neg_nonneg_cases i) as [Hneg | Hi].
      * rewrite !Z.testbit_neg_r by exact Hneg. reflexivity.
      * rewrite B2, Hb by exact Hi. apply andb_true_r.
Qed.

Lemma enable_then_disable_mask_witness :
  Int.in_uint32 (mMessageEnabler (this fresh))
  /\ mMessageEnabler
       (this (after (disableMessage 3) (after (enableMessage 3) fresh))) = 0.
Proof.
  assert (H : Int.in_uint32 (mMessageEnabler (this fresh))).
  { unfold Int.in_uint32. simpl. lia. }
  split; [exact H |].
  destruct (enable_then_disable_mask fresh 3 H) as [_ [_ [E _]]].
  rewrite E. reflexivity.
Defined.

(** ** Teardown *)

(** C9.  After [cleanupCBNotifier] the object is the freshly constructed
    one, field by field, so every query answers as it does right after
    construction: mask 0, all four callbacks and the opaque context null,
    recording disabled, last timestamp and interval 0. *)
Theorem cleanup_restores_construction (m : Machine) :
  let m' := after cleanupCBNotifier m in
  result cleanupCBNotifier m = Returns tt
  /\ this m' = CallbackNotifier_ctor
  /\ calls m' = calls m
  /\ (mMessageEnabler (this m') = 0
      /\ mNotifyCB (this m') = NULL
      /\ mDataCB (this m') = NULL
      /\ mDataCBTimestamp (this m') = NULL
      /\ mGetMemoryCB (this m') = NULL
      /\ mCBOpaque (this m') = NULL
      /\ mLastFrameTimestamp (this m') = 0
      /\ mFrameRefreshFreq (this m') = 0
      /\ mVideoRecEnabled (this m') = false)
  /\ result isVideoRecordingEnabled m' = result isVideoRecordingEnabled fresh
  /\ result isVideoRecordingEnabled m' = Returns false
  /\ (forall bits,
        result (isMessageEnabled bits) m' = result (isMessageEnabled bits) fresh).
Proof.
  cbv zeta. repeat split.
Qed.

(** ** The frame-rate gate *)

(** C3, as stated, fails: a negative rate is accepted like any other. *)
Lemma enableVideoRecording_accepts_negative_rate :
  -1 <= 0
  /\ result (enableVideoRecording (-1)) fresh = Returns NO_ERROR
  /\ mVideoRecEnabled (this (after (enableVideoRecording (-1)) fresh)) = true
  /\ mFrameRefreshFreq (this (after (enableVideoRecording (-1)) fresh))
     = -1000000000
  /\ ~ rejects_rate (-1) fresh.
Proof.
  split; [lia |]. repeat split.
  intros [E _]. vm_compute in E. discriminate.
Qed.

(** C3, amended.  [enableVideoRecording] does not validate its argument.
    For every [fps < 0] it returns [NO_ERROR], enables recording, resets the
    last timestamp to 0 and stores the interval [1000000000 / fps], the
    quotient truncated towards zero, which is not positive; the mask, the
    callbacks and the opaque context are untouched and no call is made. *)
Theorem enableVideoRecording_negative_rate (fps : Z) (m : Machine) :
  fps < 0 ->
  let m' := after (enableVideoRecording fps) m in
  result (enableVideoRecording fps) m = Returns NO_ERROR
  /\ mVideoRecEnabled (this m') = true
  /\ mLastFrameTimestamp (this m') = 0
  /\ mFrameRefreshFreq (this m') = Z.quot 1000000000 fps
  /\ - 1000000000 <= mFrameRefreshFreq (this m') <= 0
  /\ mMessageEnabler (this m') = mMessageEnabler (this m)
  /\ mNotifyCB (this m') = mNotifyCB (this m)
  /\ mDataCB (this m') = mDataCB (this m)
  /\ mDataCBTimestamp (this m') = mDataCBTimestamp (this m)
  /\ mGetMemoryCB (this m') = mGetMemoryCB (this m)
  /\ mCBOpaque (this m') = mCBOpaque (this m)
  /\ calls m' = calls m.
Proof.
  intros Hfps. cbv zeta.
  rewrite result_run, !after_run, run_enableVideoRecording by lia. simpl.
  repeat split.
  - rewrite <- (Z.opp_involutive fps), Z.quot_opp_r by lia.
    assert (Q : Z.quot 1000000000 (- fps) <= 1000000000).
    { apply Z.le_trans with (Z.quot 1000000000 1).
      - apply Z.quot_le_compat_l; lia.
      - rewrite Z.quot_1_r. lia. }
    lia.
  - rewrite <- (Z.opp_involutive fps), Z.quot_opp_r by lia.
    assert (Q : 0 <= Z.quot 1000000000 (- fps)) by (apply Z.quot_pos; lia).
    lia.
Qed.

Lemma enableVideoRecording_negative_rate_witness :
  -30 < 0
  /\ result (enableVideoRecording (-30)) fresh = Returns NO_ERROR
  /\ mFrameRefreshFreq (this (after (enableVideoRecording (-30)) fresh))
     = -33333333.
Proof.
  assert (H : -30 < 0) by lia.
  split; [exact H |].
  destruct (enableVideoRecording_negative_rate (-30) fresh H)
    as [R [_ [_ [F _]]]].
  split; [exact R |]. rewrite F. reflexivity.
Defined.

(** C4, as stated, fails: at 30 frames per second the interval is
    33333333 ns, and a first frame stamped 0 is [0 - 0 < 33333333] away
    from the reset reference, so it is rejected. *)
Lemma first_frame_at_zero_rejected :
  0 < 30 /\ 0 <= 0
  /\ mFrameRefreshFreq (this (after (enableVideoRecording 30) fresh)) = 33333333
  /\ result (isNewVideoFrameTime 0) (after (enableVideoRecording 30) fresh)
     = Returns false.
Proof.
  repeat split; lia.
Qed.

(** C4, amended.  For every [fps > 0], right after
    [enableVideoRecording fps] the first admission check of a timestamp
    answers true exactly when the timestamp is at least the interval
    [1000000000 / fps]; it then becomes the reference.  A timestamp in
    [0 .. interval - 1] is rejected and the reference stays 0. *)
Theorem first_frame_after_enable (fps timestamp : Z) (m : Machine) :
  0 < fps -> Int.in_int64 timestamp ->
  let m1 := after (enableVideoRecording fps) m in
  let interval := Z.quot 1000000000 fps in
  result (enableVideoRecording fps) m = Returns NO_ERROR
  /\ mFrameRefreshFreq (this m1) = interval
  /\ mLastFrameTimestamp (this m1) = 0
  /\ result (isNewVideoFrameTime timestamp) m1 = Returns (interval <=? timestamp)
  /\ (interval <= timestamp ->
      result (isNewVideoFrameTime timestamp) m1 = Returns true
      /\ mLastFrameTimestamp (this (after (isNewVideoFrameTime timestamp) m1))
         = timestamp)
  /\ (timestamp < interval ->
      result (isNewVideoFrameTime timestamp) m1 = Returns false
      /\ after (isNewVideoFrameTime timestamp) m1 = m1).
Proof.
  intros Hfps Hts. cbv zeta.
  assert (M1 : after (enableVideoRecording fps) m
               = mk_machine
                   (set_mFrameRefreshFreq (Z.quot 1000000000 fps)
                      (set_mLastFrameTimestamp 0
                         (set_mVideoRecEnabled true (this m))))
                   (calls m)).
  { rewrite after_run, run_enableVideoRecording by lia. reflexivity. }
  rewrite !M1.
  rewrite !result_run, !after_run, !run_isNewVideoFrameTime,
    run_enableVideoRecording by lia.
  simpl. rewrite sub64_zero by exact Hts. rewrite Z.geb_leb.
  destruct (Z.leb_spec (Z.quot 1000000000 fps) timestamp);
    repeat split; intros; try reflexivity; lia.
Qed.

Lemma first_frame_after_enable_witness :
  0 < 30 /\ Int.in_int64 40000000
  /\ result (isNewVideoFrameTime 40000000) (after (enableVideoRecording 30) fresh)
     = Returns true.
Proof.
  assert (H1 : 0 < 30) by lia.
  assert (H2 : Int.in_int64 40000000) by (unfold Int.in_int64; lia).
  split; [exact H1 |]. split; [exact H2 |].
  destruct (first_frame_after_enable 30 40000000 fresh H1 H2)
    as [_ [_ [_ [R _]]]].
  rewrite R. reflexivity.
Defined.

(** C6, as stated, fails where the difference does not fit [nsecs_t]: with
    the reference at 40000000 and the interval 33333333, the timestamp
    [-2^63] is far behind the reference, yet [timestamp - reference] wraps
    around to a large positive value and the frame is admitted. *)
Lemma isNewVideoFrameTime_admits_on_overflow :
  let m := after (enableVideoRecording 30 ;; isNewVideoFrameTime 40000000)
             fresh in
  let timestamp := - 2 ^ 63 in
  Int.in_int64 timestamp
  /\ mLastFrameTimestamp (this m) = 40000000
  /\ mFrameRefreshFreq (this m) = 33333333
  /\ result (isNewVideoFrameTime timestamp) m = Returns true
  /\ mLastFrameTimestamp (this (after (isNewVideoFrameTime timestamp) m))
     = timestamp
  /\ ~ (timestamp - mLastFrameTimestamp (this m)
        >= mFrameRefreshFreq (this m)).
Proof.
  cbv zeta. split; [unfold Int.in_int64; lia |].
  repeat split. vm_compute. intros H. apply H. reflexivity.
Qed.

(** C6, amended.  Whenever the difference of the timestamp and the
    reference fits [nsecs_t], the admission check answers true, and makes
    the timestamp the reference, exactly when
    [timestamp - mLastFrameTimestamp >= mFrameRefreshFreq]; a rejection
    changes nothing.  Hence after a rejected timestamp the next one is
    judged against the old reference, and when admitted becomes the
    reference itself. *)
Theorem isNewVideoFrameTime_compares_difference (m : Machine) (timestamp : Z) :
  Int.in_int64 (timestamp - mLastFrameTimestamp (this m)) ->
  let last := mLastFrameTimestamp (this m) in
  let freq := mFrameRefreshFreq (this m) in
  let m' := after (isNewVideoFrameTime timestamp) m in
  (result (isNewVideoFrameTime timestamp) m = Returns true
   \/ result (isNewVideoFrameTime timestamp) m = Returns false)
  /\ (result (isNewVideoFrameTime timestamp) m = Returns true
      <-> timestamp - last >= freq)
  /\ (result (isNewVideoFrameTime timestamp) m = Returns false
      <-> timestamp - last < freq)
  /\ (timestamp - last >= freq ->
      m' = mk_machine (set_mLastFrameTimestamp timestamp (this m)) (calls m)
      /\ mLastFrameTimestamp (this m') = timestamp)
  /\ (timestamp - last < freq -> m' = m)
  /\ (forall later,
        Int.in_int64 (later - last) ->
        timestamp - last < freq ->
        (result (isNewVideoFrameTime later) m' = Returns true
         <-> later - last >= freq)
        /\ (later - last >= freq ->
            mLastFrameTimestamp (this (after (isNewVideoFrameTime later) m'))
            = later)).
Proof.
  intros Hfit. cbv zeta.
  assert (G : forall ts,
            Int.in_int64 (ts - mLastFrameTimestamp (this m)) ->
            (ts - mLastFrameTimestamp (this m) >= mFrameRefreshFreq (this m) ->
             run (isNewVideoFrameTime ts) m
             = (Returns true,
                mk_machine (set_mLastFrameTimestamp ts (this m)) (calls m)))
            /\ (ts - mLastFrameTimestamp (this m) < mFrameRefreshFreq (this m) ->
                run (isNewVideoFrameTime ts) m = (Returns false, m))).
  { intros ts Hts. rewrite run_isNewVideoFrameTime, sub64_exact by exact Hts.
    rewrite Z.geb_leb.
    destruct (Z.leb_spec (mFrameRefreshFreq (this m))
                (ts - mLastFrameTimestamp (this m)));
      split; intros; try reflexivity; lia. }
  destruct (G timestamp Hfit) as [Gadm Grej].
  rewrite !result_run, !after_run.
  destruct (Z_ge_lt_dec (timestamp - mLastFrameTimestamp (this m))
              (mFrameRefreshFreq (this m))) as [Hge | Hlt].
  - rewrite (Gadm Hge). cbn [fst snd this mLastFrameTimestamp
                              set_mLastFrameTimestamp].
    split; [left; reflexivity |].
    split; [split; [intros _; exact Hge | reflexivity] |].
    split; [split; [discriminate | lia] |].
    split; [intros _; split; reflexivity |].
    split; [lia |].
    intros later _ Hcontra. lia.
  - rewrite (Grej Hlt). cbn [fst snd].
    split; [right; reflexivity |].
    split; [split; [discriminate | lia] |].
    split; [split; [intros _; exact Hlt | reflexivity] |].
    split; [lia |].
    split; [reflexivity |].
    intros later Hlater _.
    destruct (G later Hlater) as [Ladm Lrej].
    rewrite !result_run, !after_run.
    destruct (Z_ge_lt_dec (later - mLastFrameTimestamp (this m))
                (mFrameRefreshFreq (this m))) as [Lge | Llt].
    + rewrite (Ladm Lge). cbn [fst snd this mLastFrameTimestamp
                                set_mLastFrameTimestamp].
      split; [split; [intros _; exact Lge | reflexivity] |].
      reflexivity.
    + rewrite (Lrej Llt). cbn [fst snd].
      split; [split; [discriminate | lia] | lia].
Qed.

Lemma isNewVideoFrameTime_compares_difference_witness :
  let m := after (enableVideoRecording 30 ;; isNewVideoFrameTime 40000000)
             fresh in
  Int.in_int64 (50000000 - mLastFrameTimestamp (this m))
  /\ result (isNewVideoFrameTime 50000000) m = Returns false
  /\ result (isNewVideoFrameTime 80000000)
       (after (isNewVideoFrameTime 50000000) m) = Returns true
  /\ mLastFrameTimestamp
       (this (after (isNewVideoFrameTime 80000000)
                (after (isNewVideoFrameTime 50000000) m)))
     = 80000000.
Proof.
  cbv zeta.
  set (m := after (enableVideoRecording 30 ;; isNewVideoFrameTime 40000000)
              fresh).
  assert (H : Int.in_int64 (50000000 - mLastFrameTimestamp (this m)))
    by (unfold Int.in_int64; simpl; lia).
  assert (H' : Int.in_int64 (80000000 - mLastFrameTimestamp (this m)))
    by (unfold Int.in_int64; simpl; lia).
  assert (Hrej : 50000000 - mLastFrameTimestamp (this m)
                 < mFrameRefreshFreq (this m)) by reflexivity.
  assert (Hadm : 80000000 - mLastFrameTimestamp (this m)
                 >= mFrameRefreshFreq (this m)) by (vm_compute; discriminate).
  split; [exact H |].
  destruct (isNewVideoFrameTime_compares_difference m 50000000 H)
    as [_ [_ [Rej [_ [_ Later]]]]].
  split; [apply (proj2 Rej); exact Hrej |].
  destruct (Later 80000000 H' Hrej) as [Adm Ref].
  split; [apply (proj2 Adm); exact Hadm | apply Ref; exact Hadm].
Defined.

(** ** The frame dispatcher *)

Lemma video_frame_wanted_true (o : CallbackNotifier) :
  video_frame_wanted o = true ->
  Z.land (mMessageEnabler o) CAMERA_MSG_VIDEO_FRAME <> 0
  /\ mDataCBTimestamp o <> NULL
  /\ mVideoRecEnabled o = true.
Proof.
  unfold video_frame_wanted. intros H.
  apply andb_true_iff in H. destruct H as [H Hrec].
  apply andb_true_iff in H. destruct H as [Hbit Hcb].
  apply negb_true_iff, Z.eqb_neq in Hbit.
  apply negb_true_iff, Z.eqb_neq in Hcb.
  auto.
Qed.

(** An admitted frame for which the allocator hands out a buffer with
    storage is copied and delivered: one allocator call for the size of the
    frame buffer, then one timestamped-data call with offset 0. *)
Lemma onNextFrameAvailable_delivers consumer frame timestamp camera_dev m
    buff bytes :
  video_frame_wanted (this m) = true ->
  (Int.sub64 timestamp (mLastFrameTimestamp (this m))
     >=? mFrameRefreshFreq (this m)) = true ->
  mGetMemoryCB (this m) <> NULL ->
  request_memory consumer (mGetMemoryCB (this m)) (calls m)
    (-1) (getFrameBufferSize camera_dev) 1 NULL = Some buff ->
  data buff = Some bytes ->
  getFrameBufferSize camera_dev <= Z.of_nat (List.length frame) ->
  getFrameBufferSize camera_dev <= Z.of_nat (List.length bytes) ->
  run (onNextFrameAvailable consumer frame timestamp camera_dev) m =
  (Returns tt,
   mk_machine (set_mLastFrameTimestamp timestamp (this m))
     (calls m ++
      [ GetMemory (mGetMemoryCB (this m))
          (-1) (getFrameBufferSize camera_dev) 1 NULL;
        DataTimestamp (mDataCBTimestamp (this m)) timestamp
          CAMERA_MSG_VIDEO_FRAME
          (with_data buff
             (firstn (Z.to_nat (getFrameBufferSize camera_dev)) frame
              ++ skipn (Z.to_nat (getFrameBufferSize camera_dev)) bytes))
          0 (mCBOpaque (this m)) ])).
Proof.
  intros Hw Hadm Hgm Hreq Hdata Hframe Hbytes.
  destruct (video_frame_wanted_true _ Hw) as [_ [Hcb _]].
  apply Z.eqb_neq in Hgm. apply Z.eqb_neq in Hcb.
  apply Z.leb_le in Hframe. apply Z.leb_le in Hbytes.
  unfold onNextFrameAvailable, isNewVideoFrameTime, call_mGetMemoryCB,
    call_mDataCBTimestamp, memcpy.
  member_unfold. simpl.
  rewrite Hw, Hadm. simpl. rewrite Hgm. simpl. rewrite Hreq, Hdata.
  rewrite Hframe, Hbytes. simpl. rewrite Hcb. simpl.
  rewrite <- app_assoc. reflexivity.
Qed.

(** An admitted frame for which the allocator returns null, or a buffer
    without storage, is dropped after the one allocator call. *)
Lemma onNextFrameAvailable_allocation_failure consumer frame timestamp
    camera_dev m :
  video_frame_wanted (this m) = true ->
  (Int.sub64 timestamp (mLastFrameTimestamp (this m))
     >=? mFrameRefreshFreq (this m)) = true ->
  mGetMemoryCB (this m) <> NULL ->
  match request_memory consumer (mGetMemoryCB (this m)) (calls m)
          (-1) (getFrameBufferSize camera_dev) 1 NULL with
  | None => True
  | Some buff => data buff = None
  end ->
  run (onNextFrameAvailable consumer frame timestamp camera_dev) m =
  (Returns tt,
   mk_machine (set_mLastFrameTimestamp timestamp (this m))
     (calls m ++
      [ GetMemory (mGetMemoryCB (this m))
          (-1) (getFrameBufferSize camera_dev) 1 NULL ])).
Proof.
  intros Hw Hadm Hgm Hreq. apply Z.eqb_neq in Hgm.
  unfold onNextFrameAvailable, isNewVideoFrameTime, call_mGetMemoryCB.
  member_unfold. simpl.
  rewrite Hw, Hadm. simpl. rewrite Hgm. simpl.
  destruct (request_memory consumer (mGetMemoryCB (this m)) (calls m)
              (-1) (getFrameBufferSize camera_dev) 1 NULL) as [buff |];
    [rewrite Hreq |]; reflexivity.
Qed.

(** C2: the dispatcher tests [mDataCBTimestamp] against [NULL] but not
    [mGetMemoryCB], which it calls first.  With the timestamped-data
    callback installed and the allocator left null, an admitted frame moves
    the reference timestamp and then calls through the null pointer. *)
Theorem onNextFrameAvailable_null_allocator consumer frame camera_dev :
  let install :=
    setCallbacks NULL NULL 4096 NULL NULL ;;
    enableMessage CAMERA_MSG_VIDEO_FRAME ;;
    enableVideoRecording 30 in
  let m := after install fresh in
  result install fresh = Returns NO_ERROR
  /\ mGetMemoryCB (this m) = NULL
  /\ mLastFrameTimestamp (this m) = 0
  /\ result (onNextFrameAvailable consumer frame 40000000 camera_dev) m
     = Faults NullFunctionCall
  /\ after (onNextFrameAvailable consumer frame 40000000 camera_dev) m
     = mk_machine (set_mLastFrameTimestamp 40000000 (this m)) (calls m)
  /\ after (onNextFrameAvailable consumer frame 40000000 camera_dev) m <> m.
Proof.
  cbv zeta. repeat split. intros E. vm_compute in E. discriminate.
Qed.

(** C8.  With no callback set installed, or the video-frame bit clear in
    the mask, or recording disabled, the dispatcher returns at once for any
    frame and timestamp: the object and the log of calls are as before, so
    neither the allocator nor the timestamped-data callback is invoked. *)
Theorem dispatch_disabled_is_silent consumer frame timestamp camera_dev m :
  no_callback_set (this m)
  \/ Z.testbit (mMessageEnabler (this m)) 5 = false
  \/ mVideoRecEnabled (this m) = false ->
  let m' := after (onNextFrameAvailable consumer frame timestamp camera_dev) m in
  run (onNextFrameAvailable consumer frame timestamp camera_dev) m
  = (Returns tt, m)
  /\ calls m' = calls m
  /\ allocator_calls (calls m') = allocator_calls (calls m)
  /\ data_callbacks (calls m') = data_callbacks (calls m).
Proof.
  intros H. cbv zeta.
  assert (W : video_frame_wanted (this m) = false).
  { unfold video_frame_wanted.
    destruct H as [[_ [_ [Hcb _]]] | [Hbit | Hrec]].
    - rewrite Hcb. simpl. rewrite andb_false_r. reflexivity.
    - apply video_frame_bit in Hbit. rewrite Hbit. reflexivity.
    - rewrite Hrec. apply andb_false_r. }
  rewrite after_run, onNextFrameAvailable_unwanted by exact W.
  repeat split.
Qed.

Lemma dispatch_disabled_is_silent_witness :
  no_callback_set (this fresh)
  /\ run (onNextFrameAvailable (mk_consumer (fun _ _ _ _ _ _ => None))
            [x00; x01] 40000000 (mk_camera_device 2)) fresh
     = (Returns tt, fresh).
Proof.
  assert (H : no_callback_set (this fresh)).
  { unfold no_callback_set. simpl. repeat split; reflexivity. }
  split; [exact H |].
  apply (dispatch_disabled_is_silent (mk_consumer (fun _ _ _ _ _ _ => None))
           [x00; x01] 40000000 (mk_camera_device 2) fresh (or_introl H)).
Defined.

(** C10.  Whatever the object, the frame and the outcome, the dispatcher
    leaves the mask, the four callbacks, the opaque context, the recording
    flag and the interval as they were.  [mLastFrameTimestamp] is either
    untouched too, or the frame passed the three tests and the gate and
    the field now holds its timestamp. *)
Theorem onNextFrameAvailable_preserves consumer frame timestamp camera_dev m :
  let m' := after (onNextFrameAvailable consumer frame timestamp camera_dev) m in
  mMessageEnabler (this m') = mMessageEnabler (this m)
  /\ mNotifyCB (this m') = mNotifyCB (this m)
  /\ mDataCB (this m') = mDataCB (this m)
  /\ mDataCBTimestamp (this m') = mDataCBTimestamp (this m)
  /\ mGetMemoryCB (this m') = mGetMemoryCB (this m)
  /\ mCBOpaque (this m') = mCBOpaque (this m)
  /\ mVideoRecEnabled (this m') = mVideoRecEnabled (this m)
  /\ mFrameRefreshFreq (this m') = mFrameRefreshFreq (this m)
  /\ (mLastFrameTimestamp (this m') = mLastFrameTimestamp (this m)
      \/ (video_frame_wanted (this m) = true
          /\ Int.sub64 timestamp (mLastFrameTimestamp (this m))
             >= mFrameRefreshFreq (this m)
          /\ mLastFrameTimestamp (this m') = timestamp)).
Proof.
  cbv zeta.
  destruct (video_frame_wanted (this m)) eqn:Hw.
  2:{ rewrite after_run, onNextFrameAvailable_unwanted by exact Hw.
      simpl. repeat split. left. reflexivity. }
  destruct (Int.sub64 timestamp (mLastFrameTimestamp (this m))
              >=? mFrameRefreshFreq (this m)) eqn:Hadm.
  2:{ rewrite after_run, onNextFrameAvailable_rejected by exact Hadm.
      simpl. repeat split. left. reflexivity. }
  assert (Hge : Int.sub64 timestamp (mLastFrameTimestamp (this m))
                >= mFrameRefreshFreq (this m)).
  { rewrite Z.geb_leb in Hadm. apply Z.leb_le in Hadm. lia. }
  unfold after, onNextFrameAvailable, isNewVideoFrameTime, call_mGetMemoryCB,
    call_mDataCBTimestamp, memcpy.
  member_unfold. simpl. rewrite Hw, Hadm. simpl.
  split_tests; repeat split; right; repeat split; assumption.
Qed.

(** ** The recording scenario *)

Lemma run_bind {A B} (c : M A) (k : A -> M B) (m : Machine) :
  run (bind c k) m =
  match run c m with
  | (Returns a, m') => run (k a) m'
  | (Faults f, m') => (Faults f, m')
  end.
Proof. reflexivity. Qed.

(** C5, as stated, fails: the frame stamped 0 is not delivered, only the
    one stamped 40000000 is. *)
Lemma scenario_delivers_one_frame :
  let m := after (recording_scenario zeroing_consumer 1 2 3 4 5
                    (repeat x01 4096) (repeat x02 4096) (repeat x03 4096))
             fresh in
  delivered (calls m) = [40000000]
  /\ data_callbacks (calls m) = 1%nat
  /\ allocator_calls (calls m) = 1%nat
  /\ delivered (calls m) <> [0; 40000000].
Proof.
  cbv zeta. vm_compute. repeat split. discriminate.
Qed.

(** C5, amended.  In the scenario exactly one frame is delivered, the one
    stamped 40000000: the frames stamped 0 and 10000000 are both closer
    than 33333333 ns to the reference 0 and are dropped without any call.
    The delivery is one allocator call [(-1, 4096, 1, NULL)] followed by one
    timestamped-data call carrying the timestamp, the video-frame kind, the
    buffer holding the 4096 bytes of the frame, offset 0 and the opaque
    context.  This needs the two callbacks the dispatcher uses to be
    non-null and the allocator to return a buffer with at least 4096 bytes
    of storage. *)
Theorem scenario_delivery consumer notify_cb data_cb data_cb_timestamp
    get_memory user frame0 frame1 frame2 buff bytes :
  data_cb_timestamp <> NULL ->
  get_memory <> NULL ->
  request_memory consumer get_memory [] (-1) 4096 1 NULL = Some buff ->
  data buff = Some bytes ->
  4096 <= Z.of_nat (List.length bytes) ->
  4096 <= Z.of_nat (List.length frame2) ->
  let scenario :=
    recording_scenario consumer notify_cb data_cb data_cb_timestamp
      get_memory user frame0 frame1 frame2 in
  result scenario fresh = Returns tt
  /\ calls (after scenario fresh)
     = [ GetMemory get_memory (-1) 4096 1 NULL;
         DataTimestamp data_cb_timestamp 40000000 CAMERA_MSG_VIDEO_FRAME
           (with_data buff (firstn 4096 frame2 ++ skipn 4096 bytes))
           0 user ]
  /\ delivered (calls (after scenario fresh)) = [40000000]
  /\ allocator_calls (calls (after scenario fresh)) = 1%nat
  /\ data_callbacks (calls (after scenario fresh)) = 1%nat
  /\ mLastFrameTimestamp (this (after scenario fresh)) = 40000000.
Proof.
  intros Hcb Hgm Hreq Hdata Hbytes Hframe. cbv zeta.
  set (m3 := mk_machine
               (mkCallbackNotifier notify_cb data_cb data_cb_timestamp
                  get_memory user 0 33333333 32 true) []).
  assert (W : video_frame_wanted (this m3) = true).
  { unfold video_frame_wanted. simpl.
    apply Z.eqb_neq in Hcb. rewrite Hcb. reflexivity. }
  assert (R : run (recording_scenario consumer notify_cb data_cb
                     data_cb_timestamp get_memory user frame0 frame1 frame2)
                fresh
              = (Returns tt,
                 mk_machine (set_mLastFrameTimestamp 40000000 (this m3))
                   [ GetMemory get_memory (-1) 4096 1 NULL;
                     DataTimestamp data_cb_timestamp 40000000
                       CAMERA_MSG_VIDEO_FRAME
                       (with_data buff (firstn 4096 frame2 ++ skipn 4096 bytes))
                       0 user ])).
  { change (run (recording_scenario consumer notify_cb data_cb
                   data_cb_timestamp get_memory user frame0 frame1 frame2)
              fresh)
      with (run (onNextFrameAvailable consumer frame0 0 camera_4096 ;;
                 onNextFrameAvailable consumer frame1 10000000 camera_4096 ;;
                 onNextFrameAvailable consumer frame2 40000000 camera_4096)
              m3).
    rewrite run_bind, onNextFrameAvailable_rejected by reflexivity.
    rewrite run_bind, onNextFrameAvailable_rejected by reflexivity.
    rewrite (onNextFrameAvailable_delivers consumer frame2 40000000
               camera_4096 m3 buff bytes W);
      try assumption; reflexivity. }
  rewrite result_run, !after_run, R. simpl. repeat split.
Qed.

Lemma scenario_delivery_witness :
  (4 <> NULL /\ 3 <> NULL)
  /\ delivered
       (calls (after (recording_scenario zeroing_consumer 1 2 3 4 5
                        (repeat x01 4096) (repeat x02 4096) (repeat x03 4096))
                 fresh))
     = [40000000].
Proof.
  assert (Hcb : 3 <> NULL) by (unfold NULL; lia).
  assert (Hgm : 4 <> NULL) by (unfold NULL; lia).
  split; [split; assumption |].
  refine (proj1 (proj2 (proj2
    (scenario_delivery zeroing_consumer 1 2 3 4 5
       (repeat x01 4096) (repeat x02 4096) (repeat x03 4096)
       (mk_camera_memory (Some (repeat x00 4096)) 4096 0) (repeat x00 4096)
       Hcb Hgm _ _ _ _)))).
  - reflexivity.
  - reflexivity.
  - vm_compute. discriminate.
  - vm_compute. discriminate.
Defined.

(** ** The names of a message set *)

Lemma lCameraMessagesNum_eq : lCameraMessagesNum = 11.
Proof. reflexivity. Qed.

Lemma land_1_eqb (msg : Z) : (Z.land msg 1 =? 0) = negb (Z.odd msg).
Proof.
  change 1 with (Z.ones 1) at 1. rewrite Z.land_ones by lia.
  change (2 ^ 1) with 2. rewrite Zmod_odd.
  destruct (Z.odd msg); reflexivity.
Qed.

Lemma skipn_nth_cons {A} (d : A) (l : list A) (n : nat) :
  (n < List.length l)%nat -> skipn n l = nth n l d :: skipn (S n) l.
Proof.
  revert n. induction l as [| a l IH]; intros n Hn; simpl in Hn.
  - lia.
  - destruct n as [| n]; [reflexivity |].
    change (skipn (S n) (a :: l)) with (skipn n l).
    change (nth (S n) (a :: l) d) with (nth n l d).
    change (skipn (S (S n)) (a :: l)) with (skipn (S n) l).
    apply IH. lia.
Qed.

Lemma table_from_cons (index : Z) :
  0 <= index < lCameraMessagesNum ->
  table_from index
  = nth (Z.to_nat index) lCameraMessages EmptyString :: table_from (index + 1).
Proof.
  intros H. unfold table_from.
  replace (Z.to_nat (index + 1)) with (S (Z.to_nat index)) by lia.
  apply skipn_nth_cons. unfold lCameraMessagesNum in H. lia.
Qed.

Lemma table_from_end : table_from lCameraMessagesNum = [].
Proof. reflexivity. Qed.

Lemma names_of_zero (table : list string) : names_of table 0 = [].
Proof.
  induction table as [| name rest IH]; [reflexivity |].
  cbn [names_of]. rewrite Z.shiftr_0_l, IH. reflexivity.
Qed.

Lemma names_of_length (table : list string) (msg : Z) :
  (List.length (names_of table msg) <= List.length table)%nat.
Proof.
  revert msg. induction table as [| name rest IH]; intros msg; [simpl; lia |].
  cbn [names_of]. rewrite length_app. specialize (IH (Z.shiftr msg 1)).
  destruct (Z.odd msg); simpl; lia.
Qed.

(** The inner loop stops, at the first table entry whose bit is set or at
    the end of the table, and skips no name. *)
Lemma skip_clear_bits_spec (fuel : nat) :
  forall msg index,
    0 <= index <= lCameraMessagesNum ->
    (Z.to_nat (lCameraMessagesNum - index) <= fuel)%nat ->
    exists msg' index',
      skip_clear_bits fuel msg index = Some (msg', index')
      /\ index <= index' <= lCameraMessagesNum
      /\ names_of (table_from index) msg = names_of (table_from index') msg'
      /\ (index' < lCameraMessagesNum -> Z.odd msg' = true).
Proof.
  induction fuel as [| fuel IH]; intros msg index Hi Hfuel;
    cbn [skip_clear_bits]; rewrite land_1_eqb;
    destruct (Z.odd msg) eqn:Hodd; cbn [negb andb].
  - exists msg, index. repeat split; auto; lia.
  - destruct (Z.ltb_spec index lCameraMessagesNum) as [Hlt | Hge]; [lia |].
    exists msg, index. repeat split; auto; lia.
  - exists msg, index. repeat split; auto; lia.
  - destruct (Z.ltb_spec index lCameraMessagesNum) as [Hlt | Hge].
    + destruct (IH (Z.shiftr msg 1) (index + 1)) as [msg' [index' [E [B [N O]]]]];
        [lia | lia |].
      exists msg', index'. rewrite E. repeat split; auto; try lia.
      rewrite <- N, (table_from_cons index) by lia.
      cbn [names_of]. rewrite Hodd. reflexivity.
    + exists msg, index. repeat split; auto; lia.
Qed.

(** The outer loop stops too, having stored the names of the set bits from
    the current table entry on, as many as still fit below [max]; it has no
    result exactly when one of these stores has none. *)
Lemma GetMessageStrings_loop_spec (fuel : nat) :
  forall msg strings max index out,
    0 <= index <= lCameraMessagesNum ->
    0 <= out ->
    (Z.to_nat (lCameraMessagesNum - index) <= fuel)%nat ->
    GetMessageStrings_loop fuel msg strings max index out
    = saved_from strings out
        (firstn (Z.to_nat (max - out)) (names_of (table_from index) msg)).
Proof.
  induction fuel as [| fuel IH]; intros msg strings max index out Hi Hout Hfuel.
  - assert (index = lCameraMessagesNum) as -> by lia.
    cbn [GetMessageStrings_loop]. rewrite Z.ltb_irrefl, andb_false_r.
    rewrite table_from_end. cbn [names_of]. rewrite firstn_nil.
    unfold saved_from. cbn [List.length store_seq].
    rewrite Z.add_0_r. reflexivity.
  - cbn [GetMessageStrings_loop].
    destruct (negb (msg =? 0) && (out <? max) && (index <? lCameraMessagesNum))
      eqn:Hcond.
    + apply andb_true_iff in Hcond. destruct Hcond as [Hcond Hlt].
      apply andb_true_iff in Hcond. destruct Hcond as [_ Hmax].
      apply Z.ltb_lt in Hlt. apply Z.ltb_lt in Hmax.
      destruct (skip_clear_bits_spec (S fuel) msg index)
        as [msg1 [index1 [E [B [N O]]]]]; [lia | lia |].
      rewrite E, N, land_1_eqb, negb_involutive.
      destruct (Z.odd msg1 && (index1 <? lCameraMessagesNum)) eqn:Hstore.
      * apply andb_true_iff in Hstore. destruct Hstore as [Hodd Hlt1].
        apply Z.ltb_lt in Hlt1.
        rewrite (table_from_cons index1) by lia.
        cbn [names_of]. rewrite Hodd. cbn [app].
        replace (Z.to_nat (max - out)) with (S (Z.to_nat (max - (out + 1))))
          by lia.
        cbn [firstn]. unfold saved_from at 1. cbn [store_seq List.length].
        destruct (store strings (Z.to_nat out)
                    (nth (Z.to_nat index1) lCameraMessages EmptyString))
          as [strings1 |]; [| reflexivity].
        rewrite IH by lia. unfold saved_from.
        replace (Z.to_nat (out + 1)) with (S (Z.to_nat out)) by lia.
        destruct (store_seq strings1 (S (Z.to_nat out))
                    (firstn (Z.to_nat (max - (out + 1)))
                       (names_of (table_from (index1 + 1)) (Z.shiftr msg1 1))));
          [| reflexivity].
        match goal with
        | |- Some (?a, _) = Some (?b, _) => replace a with b by lia
        end.
        reflexivity.
      * assert (Hend : index1 = lCameraMessagesNum).
        { destruct (Z.ltb_spec index1 lCameraMessagesNum) as [Hlt1 | Hge1];
            [| lia].
          rewrite (O Hlt1) in Hstore. discriminate. }
        rewrite IH by lia. reflexivity.
    + assert (W : firstn (Z.to_nat (max - out))
                    (names_of (table_from index) msg) = []).
      { apply andb_false_iff in Hcond. destruct Hcond as [Hcond | Hge].
        - apply andb_false_iff in Hcond. destruct Hcond as [Hz | Hmax].
          + apply negb_false_iff, Z.eqb_eq in Hz. subst msg.
            rewrite names_of_zero. apply firstn_nil.
          + apply Z.ltb_ge in Hmax.
            replace (Z.to_nat (max - out)) with 0%nat by lia. reflexivity.
        - apply Z.ltb_ge in Hge.
          assert (index = lCameraMessagesNum) as -> by lia.
          rewrite table_from_end. cbn [names_of]. apply firstn_nil. }
      rewrite W. unfold saved_from. cbn [List.length store_seq].
      rewrite Z.add_0_r. reflexivity.
Qed.

Lemma store_after (pre : list string) (s v : string) (rest : list string) :
  store (pre ++ s :: rest) (List.length pre) v = Some (pre ++ v :: rest).
Proof.
  induction pre as [| p pre IH]; [reflexivity |].
  cbn [app List.length store]. rewrite IH. reflexivity.
Qed.

Lemma store_past (pre : list string) (v : string) :
  store pre (List.length pre) v = None.
Proof.
  induction pre as [| p pre IH]; [reflexivity |].
  cbn [List.length store]. rewrite IH. reflexivity.
Qed.

Lemma store_seq_after (w pre strings : list string) :
  (List.length w <= List.length strings)%nat ->
  store_seq (pre ++ strings) (List.length pre) w
  = Some (pre ++ w ++ skipn (List.length w) strings).
Proof.
  revert pre strings. induction w as [| v w IH]; intros pre strings Hlen.
  - reflexivity.
  - destruct strings as [| s rest]; [simpl in Hlen; lia |].
    cbn [store_seq]. rewrite store_after.
    change (pre ++ v :: rest) with (pre ++ [v] ++ rest).
    rewrite app_assoc.
    replace (S (List.length pre)) with (List.length (pre ++ [v]))
      by (rewrite length_app; simpl; lia).
    rewrite IH by (simpl in Hlen; lia).
    rewrite <- app_assoc. reflexivity.
Qed.

Lemma store_seq_past (w pre strings : list string) :
  (List.length strings < List.length w)%nat ->
  store_seq (pre ++ strings) (List.length pre) w = None.
Proof.
  revert pre strings. induction w as [| v w IH]; intros pre strings Hlen.
  - simpl in Hlen. lia.
  - cbn [store_seq]. destruct strings as [| s rest].
    + rewrite app_nil_r, store_past. reflexivity.
    + rewrite store_after.
      change (pre ++ v :: rest) with (pre ++ [v] ++ rest).
      rewrite app_assoc.
      replace (S (List.length pre)) with (List.length (pre ++ [v]))
        by (rewrite length_app; simpl; lia).
      apply IH. simpl in Hlen. lia.
Qed.

Lemma names_of_low_bits (table : list string) (msg : Z) :
  names_of table (Z.land msg (Z.ones (Z.of_nat (List.length table))))
  = names_of table msg.
Proof.
  revert msg. induction table as [| name rest IH]; intros msg; [reflexivity |].
  cbn [names_of List.length].
  assert (Hodd : Z.odd (Z.land msg (Z.ones (Z.of_nat (S (List.length rest)))))
                 = Z.odd msg).
  { rewrite <- !Z.bit0_odd, Z.land_spec, Z.testbit_ones_nonneg by lia.
    replace (0 <? Z.of_nat (S (List.length rest))) with true
      by (symmetry; apply Z.ltb_lt; lia).
    apply andb_true_r. }
  assert (Hshift : Z.shiftr (Z.land msg (Z.ones (Z.of_nat (S (List.length rest))))) 1
                   = Z.land (Z.shiftr msg 1) (Z.ones (Z.of_nat (List.length rest)))).
  { apply Z.bits_inj'. intros i Hi.
    rewrite Z.shiftr_spec, !Z.land_spec, Z.shiftr_spec by exact Hi.
    rewrite !Z.testbit_ones_nonneg by lia.
    f_equal.
    destruct (Z.ltb_spec (i + 1) (Z.of_nat (S (List.length rest))));
      destruct (Z.ltb_spec i (Z.of_nat (List.length rest))); try reflexivity; lia. }
  rewrite Hodd, Hshift, IH. reflexivity.
Qed.

(** A name is selected exactly when it stands in the table at the position
    of a set bit. *)
Lemma names_of_In (table : list string) (msg : Z) (name : string) :
  In name (names_of table msg)
  <-> exists i, nth_error table i = Some name
                /\ Z.testbit msg (Z.of_nat i) = true.
Proof.
  revert msg. induction table as [| first rest IH]; intros msg.
  - split; [intros [] |]. intros [i [E _]]. destruct i; discriminate.
  - cbn [names_of]. rewrite in_app_iff, IH. split.
    + intros [Hhead | [i [E B]]].
      * destruct (Z.odd msg) eqn:Hodd; [| destruct Hhead].
        destruct Hhead as [<- | []].
        exists 0%nat. split; [reflexivity |].
        change (Z.of_nat 0) with 0. rewrite Z.bit0_odd. exact Hodd.
      * exists (S i). split; [exact E |].
        rewrite Z.shiftr_spec in B by lia.
        replace (Z.of_nat (S i)) with (Z.of_nat i + 1) by lia. exact B.
    + intros [i [E B]]. destruct i as [| i].
      * left. cbn [nth_error] in E. injection E as ->.
        change (Z.of_nat 0) with 0 in B. rewrite Z.bit0_odd in B.
        rewrite B. left. reflexivity.
      * right. exists i. split; [exact E |].
        rewrite Z.shiftr_spec by lia.
        replace (Z.of_nat i + 1) with (Z.of_nat (S i)) by lia. exact B.
Qed.

Lemma map_nth_prefix {A B} (f : A -> B) (d : A) (w rest : list A) :
  map (fun n => f (nth n (w ++ rest) d)) (seq 0 (List.length w)) = map f w.
Proof.
  induction w as [| a w IH]; [reflexivity |].
  cbn [List.length seq map app nth]. f_equal.
  rewrite <- seq_shift, map_map. exact IH.
Qed.

(** [GetMessageStrings] as one pass over the table: the fuel of the model
    never runs out. *)
Lemma GetMessageStrings_stores (msg : Z) (strings : list string) (max : Z) :
  GetMessageStrings msg strings max
  = saved_from strings 0
      (firstn (Z.to_nat max) (names_of lCameraMessages msg)).
Proof.
  unfold GetMessageStrings.
  rewrite GetMessageStrings_loop_spec;
    [| rewrite lCameraMessagesNum_eq; lia | lia
     | rewrite lCameraMessagesNum_eq; simpl; lia].
  rewrite Z.sub_0_r. reflexivity.
Qed.

(** It has no result exactly when it has more names to save than the array
    has entries, so that a store falls past the end. *)
Lemma GetMessageStrings_overrun (msg : Z) (strings : list string) (max : Z) :
  GetMessageStrings msg strings max = None
  <-> (List.length strings
       < List.length (firstn (Z.to_nat max) (names_of lCameraMessages msg)))%nat.
Proof.
  rewrite GetMessageStrings_stores. unfold saved_from.
  change (Z.to_nat 0) with (List.length (@nil string)).
  change strings with ([] ++ strings) at 1.
  set (w := firstn (Z.to_nat max) (names_of lCameraMessages msg)).
  destruct (Nat.le_gt_cases (List.length w) (List.length strings)) as [Hle | Hgt].
  - rewrite store_seq_after by exact Hle. split; [discriminate | lia].
  - rewrite store_seq_past by exact Hgt. split; [intros _; exact Hgt | reflexivity].
Qed.

Lemma GetMessageStrings_in_bounds (msg : Z) (strings : list string) (max : Z) :
  max <= Z.of_nat (List.length strings) ->
  GetMessageStrings msg strings max
  = Some (Z.of_nat
            (List.length
               (firstn (Z.to_nat max) (names_of lCameraMessages msg))),
          firstn (Z.to_nat max) (names_of lCameraMessages msg)
          ++ skipn
               (List.length
                  (firstn (Z.to_nat max) (names_of lCameraMessages msg)))
               strings).
Proof.
  intros Hmax. rewrite GetMessageStrings_stores. unfold saved_from.
  set (w := firstn (Z.to_nat max) (names_of lCameraMessages msg)).
  assert (Hlen : (List.length w <= List.length strings)%nat).
  { unfold w. rewrite length_firstn. lia. }
  pose proof (store_seq_after w [] strings Hlen) as E.
  change (store_seq strings (Z.to_nat 0) w
          = Some (w ++ skipn (List.length w) strings)) in E.
  rewrite E. reflexivity.
Qed.



(** X2.  With an array of at least [max] entries, the count returned by
    [GetMessageStrings] is between 0 and the size of the table and, for
    [max >= 0], at most [max]; the array keeps its length.  For [max <= 0]
    and for the empty message set nothing is saved: the count is 0 and the
    array is untouched. *)
Theorem GetMessageStrings_count_bounds (msg : Z) (strings : list string)
    (max : Z) :
  max <= Z.of_nat (List.length strings) ->
  exists out strings',
    GetMessageStrings msg strings max = Some (out, strings')
    /\ 0 <= out <= lCameraMessagesNum
    /\ (0 <= max -> out <= max)
    /\ List.length strings' = List.length strings
    /\ (max <= 0 -> out = 0 /\ strings' = strings)
    /\ (msg = 0 -> out = 0 /\ strings' = strings).
Proof.
  intros Hmax. rewrite GetMessageStrings_in_bounds by exact Hmax.
  eexists. eexists. split; [reflexivity |].
  pose proof (names_of_length lCameraMessages msg) as Hn.
  pose proof (length_firstn (Z.to_nat max) (names_of lCameraMessages msg)) as Hf.
  unfold lCameraMessagesNum.
  split; [lia |]. split; [lia |].
  split; [rewrite length_app, length_skipn; lia |].
  split.
  - intros Hle. replace (Z.to_nat max) with 0%nat by lia.
    split; reflexivity.
  - intros ->. rewrite names_of_zero, firstn_nil. split; reflexivity.
Qed.

Lemma GetMessageStrings_count_bounds_witness :
  2 <= Z.of_nat (List.length ["a"; "b"; "c"]%string)
  /\ exists out strings',
       GetMessageStrings 35 ["a"; "b"; "c"]%string 2 = Some (out, strings')
       /\ 0 <= out <= lCameraMessagesNum
       /\ List.length strings' = List.length ["a"; "b"; "c"]%string.
Proof.
  assert (H : 2 <= Z.of_nat (List.length ["a"; "b"; "c"]%string))
    by (simpl; lia).
  split; [exact H |].
  destruct (GetMessageStrings_count_bounds 35 ["a"; "b"; "c"]%string 2 H)
    as [out [strings' [E [B [_ [L _]]]]]].
  exists out, strings'. repeat split; assumption || apply B.
Defined.

(** X3.  Only the bits that have a name count: the bits of [msg] from
    position [lCameraMessagesNum] up have no effect on the result. *)
Theorem GetMessageStrings_ignores_high_bits (msg : Z) (strings : list string)
    (max : Z) :
  GetMessageStrings (Z.land msg (Z.ones lCameraMessagesNum)) strings max
  = GetMessageStrings msg strings max.
Proof.
  rewrite !GetMessageStrings_stores.
  unfold lCameraMessagesNum. rewrite names_of_low_bits. reflexivity.
Qed.

(** X4.  [PrintMessages] logs one line per set bit of [msg] that has a
    name, in table order, each name after four spaces, whatever the stack
    array held before. *)
Theorem PrintMessages_lines (strs : list string) (msg : Z) :
  List.length strs = List.length lCameraMessages ->
  PrintMessages strs msg
  = Some (map (String.append "    ") (names_of lCameraMessages msg)).
Proof.
  intros Hlen. unfold PrintMessages.
  pose proof (names_of_length lCameraMessages msg) as Hn.
  assert (Hall : firstn (Z.to_nat lCameraMessagesNum)
                   (names_of lCameraMessages msg)
                 = names_of lCameraMessages msg).
  { apply firstn_all2. unfold lCameraMessagesNum. lia. }
  rewrite GetMessageStrings_in_bounds
    by (unfold lCameraMessagesNum; rewrite Hlen; lia).
  rewrite Hall, Nat2Z.id.
  rewrite (map_nth_prefix (String.append "    ") EmptyString). reflexivity.
Qed.

Lemma PrintMessages_lines_witness :
  List.length (repeat EmptyString 11) = List.length lCameraMessages
  /\ PrintMessages (repeat EmptyString 11) 34
     = Some ["    CAMERA_MSG_SHUTTER"; "    CAMERA_MSG_VIDEO_FRAME"]%string.
Proof.
  assert (H : List.length (repeat EmptyString 11) = List.length lCameraMessages)
    by reflexivity.
  split; [exact H |].
  rewrite (PrintMessages_lines (repeat EmptyString 11) 34 H). reflexivity.
Defined.

(** X5.  A line is logged by [PrintMessages] exactly when it is the name of
    a table entry whose bit is set in [msg]; bits without a name log
    nothing, and no more lines are logged than the table has entries. *)
Theorem PrintMessages_line_iff_bit (strs : list string) (msg : Z) :
  List.length strs = List.length lCameraMessages ->
  exists lines,
    PrintMessages strs msg = Some lines
    /\ (List.length lines <= List.length lCameraMessages)%nat
    /\ forall line,
         In line lines
         <-> exists i name,
               nth_error lCameraMessages i = Some name
               /\ Z.testbit msg (Z.of_nat i) = true
               /\ line = String.append "    " name.
Proof.
  intros Hlen. unfold PrintMessages.
  pose proof (names_of_length lCameraMessages msg) as Hn.
  assert (Hall : firstn (Z.to_nat lCameraMessagesNum)
                   (names_of lCameraMessages msg)
                 = names_of lCameraMessages msg).
  { apply firstn_all2. unfold lCameraMessagesNum. lia. }
  rewrite GetMessageStrings_in_bounds
    by (unfold lCameraMessagesNum; rewrite Hlen; lia).
  rewrite Hall, Nat2Z.id.
  rewrite (map_nth_prefix (String.append "    ") EmptyString).
  eexists. split; [reflexivity |].
  split; [rewrite length_map; exact Hn |].
  intros line. rewrite in_map_iff. split.
  - intros [name [E Hin]]. apply names_of_In in Hin.
    destruct Hin as [i [Hi Hb]]. exists i, name. auto.
  - intros [i [name [Hi [Hb E]]]]. exists name. split; [auto |].
    apply names_of_In. exists i. auto.
Qed.

Lemma PrintMessages_line_iff_bit_witness :
  List.length (repeat EmptyString 11) = List.length lCameraMessages
  /\ exists lines,
       PrintMessages (repeat EmptyString 11) 2048 = Some lines
       /\ (List.length lines <= List.length lCameraMessages)%nat.
Proof.
  assert (H : List.length (repeat EmptyString 11) = List.length lCameraMessages)
    by reflexivity.
  split; [exact H |].
  destruct (PrintMessages_line_iff_bit (repeat EmptyString 11) 2048 H)
    as [lines [E [L _]]].
  exists lines. split; assumption.
Defined.

(** ** Sequences of frames *)

Lemma sub64_diag (t : Z) : Int.sub64 t t = 0.
Proof. unfold Int.sub64. rewrite Z.sub_diag. reflexivity. Qed.

Lemma delivered_app (a b : list call) :
  delivered (a ++ b) = delivered a ++ delivered b.
Proof.
  induction a as [| c a IH]; [reflexivity |].
  destruct c; cbn [app delivered]; rewrite IH; reflexivity.
Qed.

Lemma allocator_calls_app (a b : list call) :
  allocator_calls (a ++ b) = (allocator_calls a + allocator_calls b)%nat.
Proof. unfold allocator_calls. rewrite filter_app, length_app. reflexivity. Qed.

Lemma data_callbacks_app (a b : list call) :
  data_callbacks (a ++ b) = (data_callbacks a + data_callbacks b)%nat.
Proof. unfold data_callbacks. rewrite filter_app, length_app. reflexivity. Qed.

Lemma spaced_from_earlier (d ref ref' : Z) (l : list Z) :
  ref' <= ref -> spaced d ref l -> spaced d ref' l.
Proof.
  intros Hle. destruct l as [| t l]; [trivial |].
  cbn [spaced]. intros [H1 H2]. split; [lia | exact H2].
Qed.

(** What one call of the dispatcher can do.  Either the frame is dropped
    before anything happens, or it passes the tests and the gate; then the
    reference timestamp is the frame's and the log grows by nothing (the
    allocator pointer is null), by the allocator call, or by the allocator
    call and the delivery. *)
Lemma onNextFrameAvailable_cases consumer frame timestamp camera_dev m :
  let m' := after (onNextFrameAvailable consumer frame timestamp camera_dev) m in
  (run (onNextFrameAvailable consumer frame timestamp camera_dev) m
   = (Returns tt, m)
   /\ (video_frame_wanted (this m) = false
       \/ (Int.sub64 timestamp (mLastFrameTimestamp (this m))
             >=? mFrameRefreshFreq (this m)) = false))
  \/ (video_frame_wanted (this m) = true
      /\ (Int.sub64 timestamp (mLastFrameTimestamp (this m))
            >=? mFrameRefreshFreq (this m)) = true
      /\ this m' = set_mLastFrameTimestamp timestamp (this m)
      /\ ((mGetMemoryCB (this m) = NULL /\ calls m' = calls m)
          \/ (mGetMemoryCB (this m) <> NULL
              /\ calls m'
                 = calls m ++
                   [ GetMemory (mGetMemoryCB (this m))
                       (-1) (getFrameBufferSize camera_dev) 1 NULL ])
          \/ (mGetMemoryCB (this m) <> NULL
              /\ exists mem,
                   calls m'
                   = calls m ++
                     [ GetMemory (mGetMemoryCB (this m))
                         (-1) (getFrameBufferSize camera_dev) 1 NULL;
                       DataTimestamp (mDataCBTimestamp (this m)) timestamp
                         CAMERA_MSG_VIDEO_FRAME mem 0 (mCBOpaque (this m)) ]))).
Proof.
  cbv zeta.
  destruct (video_frame_wanted (this m)) eqn:Hw.
  2:{ left. split; [| left; reflexivity].
      apply onNextFrameAvailable_unwanted. exact Hw. }
  destruct (Int.sub64 timestamp (mLastFrameTimestamp (this m))
              >=? mFrameRefreshFreq (this m)) eqn:Hadm.
  2:{ left. split; [| right; reflexivity].
      apply onNextFrameAvailable_rejected. exact Hadm. }
  right. split; [reflexivity |]. split; [reflexivity |].
  destruct (video_frame_wanted_true _ Hw) as [_ [Hcb _]].
  apply Z.eqb_neq in Hcb.
  unfold after, onNextFrameAvailable, isNewVideoFrameTime, call_mGetMemoryCB,
    call_mDataCBTimestamp, memcpy.
  member_unfold. simpl. rewrite Hw, Hadm. simpl.
  destruct (mGetMemoryCB (this m) =? NULL) eqn:Hgm; simpl.
  - apply Z.eqb_eq in Hgm. split; [reflexivity |]. left. auto.
  - apply Z.eqb_neq in Hgm.
    destruct (request_memory consumer (mGetMemoryCB (this m)) (calls m)
                (-1) (getFrameBufferSize camera_dev) 1 NULL) as [buff |]; simpl.
    2:{ split; [reflexivity |]. right. left. auto. }
    destruct (data buff) as [bytes |]; simpl.
    2:{ split; [reflexivity |]. right. left. auto. }
    destruct ((getFrameBufferSize camera_dev <=? Z.of_nat (List.length frame))
              && (getFrameBufferSize camera_dev <=? Z.of_nat (List.length bytes)));
      simpl.
    2:{ split; [reflexivity |]. right. left. auto. }
    rewrite Hcb. simpl. split; [reflexivity |]. right. right.
    split; [exact Hgm |]. eexists. rewrite <- app_assoc. reflexivity.
Qed.

Lemma run_onFrames_cons consumer camera_dev frame timestamp rest m :
  run (onFrames consumer camera_dev ((frame, timestamp) :: rest)) m =
  match run (onNextFrameAvailable consumer frame timestamp camera_dev) m with
  | (Returns _, m') => run (onFrames consumer camera_dev rest) m'
  | (Faults f, m') => (Faults f, m')
  end.
Proof. reflexivity. Qed.

(** A sequence of frames the dispatcher does not want leaves everything as
    it is. *)
Lemma onFrames_unwanted consumer camera_dev frames m :
  video_frame_wanted (this m) = false ->
  run (onFrames consumer camera_dev frames) m = (Returns tt, m).
Proof.
  intros Hw. induction frames as [| [frame timestamp] rest IH];
    [reflexivity |].
  rewrite run_onFrames_cons, onNextFrameAvailable_unwanted by exact Hw.
  exact IH.
Qed.

Lemma dispatcher_call_same (o1 o2 : CallbackNotifier) camera_dev (c : call) :
  mGetMemoryCB o1 = mGetMemoryCB o2 ->
  mDataCBTimestamp o1 = mDataCBTimestamp o2 ->
  mCBOpaque o1 = mCBOpaque o2 ->
  dispatcher_call o1 camera_dev c -> dispatcher_call o2 camera_dev c.
Proof.
  intros E1 E2 E3. destruct c; cbn [dispatcher_call];
    rewrite ?E1, ?E2, ?E3; trivial.
Qed.

(** The same, as the step of an induction over a sequence of frames. *)
Lemma onNextFrameAvailable_step consumer frame timestamp camera_dev m :
  let m' := after (onNextFrameAvailable consumer frame timestamp camera_dev) m in
  exists new,
    calls m' = calls m ++ new
    /\ mFrameRefreshFreq (this m') = mFrameRefreshFreq (this m)
    /\ mGetMemoryCB (this m') = mGetMemoryCB (this m)
    /\ mDataCBTimestamp (this m') = mDataCBTimestamp (this m)
    /\ mCBOpaque (this m') = mCBOpaque (this m)
    /\ ((this m' = this m /\ new = [])
        \/ ((Int.sub64 timestamp (mLastFrameTimestamp (this m))
               >=? mFrameRefreshFreq (this m)) = true
            /\ mLastFrameTimestamp (this m') = timestamp
            /\ (delivered new = [] \/ delivered new = [timestamp])))
    /\ Forall (dispatcher_call (this m) camera_dev) new
    /\ (data_callbacks new <= allocator_calls new <= 1)%nat.
Proof.
  cbv zeta.
  destruct (onNextFrameAvailable_cases consumer frame timestamp camera_dev m)
    as [[E _] | [W [A [T K]]]].
  - rewrite after_run, E. cbn [snd]. exists []. rewrite app_nil_r.
    split; [reflexivity |]. do 4 (split; [reflexivity |]).
    split; [left; split; reflexivity |].
    split; [constructor | cbn; lia].
  - destruct (video_frame_wanted_true _ W) as [_ [Hcb _]].
    rewrite T. cbn [set_mLastFrameTimestamp mFrameRefreshFreq mGetMemoryCB
                      mDataCBTimestamp mCBOpaque mLastFrameTimestamp].
    destruct K as [[_ K] | [[Hgm K] | [Hgm [mem K]]]]; rewrite K.
    + exists []. rewrite app_nil_r.
      split; [reflexivity |]. do 4 (split; [reflexivity |]).
      split; [right; split; [exact A | split; [reflexivity | left; reflexivity]] |].
      split; [constructor | cbn; lia].
    + eexists. split; [reflexivity |]. do 4 (split; [reflexivity |]).
      split; [right; split; [exact A | split; [reflexivity | left; reflexivity]] |].
      split; [| cbn; lia].
      constructor; [| constructor]. cbn. repeat split; auto.
    + eexists. split; [reflexivity |]. do 4 (split; [reflexivity |]).
      split; [right; split; [exact A | split; [reflexivity | right; reflexivity]] |].
      split; [| cbn; lia].
      constructor; [| constructor; [| constructor]]; cbn; repeat split; auto.
Qed.

(** X6.  While the timestamped-data callback is null, or the video-frame
    bit is clear in the mask, or recording is disabled, a whole sequence of
    frames goes by without any call into the consumer and without any
    change of the object. *)
Theorem onFrames_disabled_is_silent consumer camera_dev frames m :
  mDataCBTimestamp (this m) = NULL
  \/ Z.testbit (mMessageEnabler (this m)) 5 = false
  \/ mVideoRecEnabled (this m) = false ->
  run (onFrames consumer camera_dev frames) m = (Returns tt, m).
Proof.
  intros H. apply onFrames_unwanted. unfold video_frame_wanted.
  destruct H as [Hcb | [Hbit | Hrec]].
  - rewrite Hcb. change (NULL =? NULL) with true. cbn [negb].
    rewrite andb_false_r. reflexivity.
  - apply video_frame_bit in Hbit. rewrite Hbit. reflexivity.
  - rewrite Hrec. apply andb_false_r.
Qed.

Lemma onFrames_disabled_is_silent_witness :
  mVideoRecEnabled (this (after (enableMessage CAMERA_MSG_VIDEO_FRAME) fresh))
  = false
  /\ run (onFrames zeroing_consumer camera_4096
            [([x01], 0); ([x02], 40000000)])
       (after (enableMessage CAMERA_MSG_VIDEO_FRAME) fresh)
     = (Returns tt, after (enableMessage CAMERA_MSG_VIDEO_FRAME) fresh).
Proof.
  assert (H : mVideoRecEnabled
                (this (after (enableMessage CAMERA_MSG_VIDEO_FRAME) fresh))
              = false) by reflexivity.
  split; [exact H |].
  apply (onFrames_disabled_is_silent zeroing_consumer camera_4096
           [([x01], 0); ([x02], 40000000)]
           (after (enableMessage CAMERA_MSG_VIDEO_FRAME) fresh)
           (or_intror (or_intror H))).
Defined.

(** X7.  Pacing.  With a non-negative interval and timestamps of a
    monotonic clock (non-negative, in [nsecs_t]), the frames a sequence of
    dispatcher calls delivers are at least one interval apart, the first of
    them at least one interval after the reference timestamp the sequence
    started from.  This holds for every allocator and whether or not the
    sequence ends in a fault. *)
Theorem delivered_frames_are_paced consumer camera_dev frames m :
  0 <= mFrameRefreshFreq (this m) ->
  clock_value (mLastFrameTimestamp (this m)) ->
  Forall (fun ft => clock_value (snd ft)) frames ->
  exists new,
    calls (after (onFrames consumer camera_dev frames) m) = calls m ++ new
    /\ spaced (mFrameRefreshFreq (this m)) (mLastFrameTimestamp (this m))
         (delivered new).
Proof.
  revert m. induction frames as [| [frame timestamp] rest IH];
    intros m Hfreq Hlast Hts.
  - exists []. rewrite app_nil_r. split; [reflexivity | exact I].
  - inversion Hts as [| ft l Hc Hrest]; subst. cbn [snd] in Hc.
    destruct (onNextFrameAvailable_step consumer frame timestamp camera_dev m)
      as [new1 [Ecalls [Efreq [_ [_ [_ [Hstep _]]]]]]].
    rewrite after_run in Ecalls, Efreq, Hstep.
    rewrite after_run, run_onFrames_cons.
    destruct (run (onNextFrameAvailable consumer frame timestamp camera_dev) m)
      as [[u | f] m1]; cbn [snd] in *.
    + assert (Hlast1 : clock_value (mLastFrameTimestamp (this m1))).
      { destruct Hstep as [[E _] | [_ [E _]]]; rewrite E; assumption. }
      destruct (IH m1) as [new2 [Ecalls2 Hsp]]; [lia | assumption | assumption |].
      rewrite after_run in Ecalls2. rewrite Efreq in Hsp.
      exists (new1 ++ new2). rewrite Ecalls2, Ecalls, <- app_assoc.
      split; [reflexivity |]. rewrite delivered_app.
      destruct Hstep as [[E ->] | [Hadm [E Hd]]].
      * rewrite E in Hsp. exact Hsp.
      * rewrite E in Hsp.
        rewrite sub64_exact in Hadm
          by (unfold clock_value, Int.in_int64 in *; lia).
        rewrite Z.geb_leb in Hadm. apply Z.leb_le in Hadm.
        destruct Hd as [-> | ->]; cbn [app spaced].
        -- apply spaced_from_earlier with timestamp; [lia | exact Hsp].
        -- split; [lia | exact Hsp].
    + exists new1. split; [exact Ecalls |].
      destruct Hstep as [[_ ->] | [Hadm [_ Hd]]]; [exact I |].
      rewrite sub64_exact in Hadm
        by (unfold clock_value, Int.in_int64 in *; lia).
      rewrite Z.geb_leb in Hadm. apply Z.leb_le in Hadm.
      destruct Hd as [-> | ->]; cbn [spaced]; [exact I |].
      split; [lia | exact I].
Qed.

Lemma delivered_frames_are_paced_witness :
  let m := after (setCallbacks 1 2 3 4 5 ;;
                  enableMessage CAMERA_MSG_VIDEO_FRAME ;;
                  enableVideoRecording 30) fresh in
  let frames := [([x01], 0); ([x02], 40000000); ([x03], 50000000);
                 ([x04], 80000000)] in
  (0 <= mFrameRefreshFreq (this m)
   /\ clock_value (mLastFrameTimestamp (this m)))
  /\ exists new,
       calls (after (onFrames zeroing_consumer (mk_camera_device 1) frames) m)
       = calls m ++ new
       /\ spaced 33333333 0 (delivered new).
Proof.
  cbv zeta.
  set (m := after (setCallbacks 1 2 3 4 5 ;;
                   enableMessage CAMERA_MSG_VIDEO_FRAME ;;
                   enableVideoRecording 30) fresh).
  assert (H1 : 0 <= mFrameRefreshFreq (this m)) by (vm_compute; discriminate).
  assert (H2 : clock_value (mLastFrameTimestamp (this m)))
    by (unfold clock_value; simpl; lia).
  assert (H3 : Forall (fun ft : list byte * nsecs_t => clock_value (snd ft))
                 [([x01], 0); ([x02], 40000000); ([x03], 50000000);
                  ([x04], 80000000)])
    by (repeat constructor; unfold clock_value; simpl; lia).
  split; [split; assumption |].
  exact (delivered_frames_are_paced zeroing_consumer (mk_camera_device 1)
           _ m H1 H2 H3).
Defined.

(** X8.  Over any sequence of frames and from any object, the dispatcher
    makes no call but these: the registered allocator, non-null, with
    [(-1, frame buffer size, 1, NULL)], and the registered timestamped-data
    callback, non-null, with the video-frame kind, offset 0 and the
    registered opaque context.  It allocates at most once per frame and
    never delivers more often than it allocates. *)
Theorem onFrames_calls consumer camera_dev frames m :
  exists new,
    calls (after (onFrames consumer camera_dev frames) m) = calls m ++ new
    /\ Forall (dispatcher_call (this m) camera_dev) new
    /\ (data_callbacks new <= allocator_calls new)%nat
    /\ (allocator_calls new <= List.length frames)%nat.
Proof.
  revert m. induction frames as [| [frame timestamp] rest IH]; intros m.
  - exists []. rewrite app_nil_r. repeat split; [constructor | cbn; lia ..].
  - destruct (onNextFrameAvailable_step consumer frame timestamp camera_dev m)
      as [new1 [Ecalls [_ [Egm [Ecb [Eop [_ [Hall Hcount]]]]]]]].
    rewrite after_run in Ecalls, Egm, Ecb, Eop.
    rewrite after_run, run_onFrames_cons.
    destruct (run (onNextFrameAvailable consumer frame timestamp camera_dev) m)
      as [[u | f] m1]; cbn [snd] in *.
    + destruct (IH m1) as [new2 [Ecalls2 [Hall2 [Hd2 Ha2]]]].
      rewrite after_run in Ecalls2.
      exists (new1 ++ new2). rewrite Ecalls2, Ecalls, <- app_assoc.
      split; [reflexivity |].
      rewrite data_callbacks_app, allocator_calls_app. cbn [List.length].
      split; [| lia].
      apply Forall_app. split; [exact Hall |].
      apply Forall_impl with (2 := Hall2). intros c.
      apply dispatcher_call_same; assumption.
    + exists new1. cbn [List.length]. repeat split; auto; lia.
Qed.

(** X9.  With a positive interval a frame is never taken twice: offering
    the same timestamp again right after a call of the dispatcher, whatever
    that call did, is dropped without any call and without any change. *)
Theorem repeated_timestamp_is_dropped consumer frame frame' timestamp
    camera_dev m :
  0 < mFrameRefreshFreq (this m) ->
  let m' := after (onNextFrameAvailable consumer frame timestamp camera_dev) m in
  run (onNextFrameAvailable consumer frame' timestamp camera_dev) m'
  = (Returns tt, m').
Proof.
  intros Hfreq. cbv zeta.
  destruct (onNextFrameAvailable_cases consumer frame timestamp camera_dev m)
    as [[E [Hw | Hrej]] | [_ [_ [T _]]]].
  - rewrite after_run, E. cbn [snd].
    apply onNextFrameAvailable_unwanted. exact Hw.
  - rewrite after_run, E. cbn [snd].
    apply onNextFrameAvailable_rejected. exact Hrej.
  - apply onNextFrameAvailable_rejected. rewrite T.
    cbn [set_mLastFrameTimestamp mLastFrameTimestamp mFrameRefreshFreq].
    rewrite sub64_diag, Z.geb_leb. apply Z.leb_gt. exact Hfreq.
Qed.

Lemma repeated_timestamp_is_dropped_witness :
  let m := after (setCallbacks 1 2 3 4 5 ;;
                  enableMessage CAMERA_MSG_VIDEO_FRAME ;;
                  enableVideoRecording 30) fresh in
  0 < mFrameRefreshFreq (this m)
  /\ result (onNextFrameAvailable zeroing_consumer [x02] 40000000
               (mk_camera_device 1))
       (after (onNextFrameAvailable zeroing_consumer [x01] 40000000
                 (mk_camera_device 1)) m)
     = Returns tt.
Proof.
  cbv zeta.
  set (m := after (setCallbacks 1 2 3 4 5 ;;
                   enableMessage CAMERA_MSG_VIDEO_FRAME ;;
                   enableVideoRecording 30) fresh).
  assert (H : 0 < mFrameRefreshFreq (this m)) by reflexivity.
  split; [exact H |].
  rewrite result_run.
  rewrite (repeated_timestamp_is_dropped zeroing_consumer [x01] [x02] 40000000
             (mk_camera_device 1) m H).
  reflexivity.
Defined.

(** X10.  A frame that passes the gate but gets no storage from the
    allocator is dropped after the one allocator call, with no delivery and
    a normal return.  It has taken the slot all the same: its timestamp is
    the new reference, so a frame following it by less than the interval is
    dropped without any call, although nothing was delivered. *)
Theorem allocation_failure_takes_the_slot consumer frame frame' timestamp
    later camera_dev m :
  video_frame_wanted (this m) = true ->
  Int.sub64 timestamp (mLastFrameTimestamp (this m))
    >= mFrameRefreshFreq (this m) ->
  mGetMemoryCB (this m) <> NULL ->
  no_storage (request_memory consumer (mGetMemoryCB (this m)) (calls m)
                (-1) (getFrameBufferSize camera_dev) 1 NULL) ->
  Int.sub64 later timestamp < mFrameRefreshFreq (this m) ->
  let m1 := after (onNextFrameAvailable consumer frame timestamp camera_dev) m in
  result (onNextFrameAvailable consumer frame timestamp camera_dev) m
  = Returns tt
  /\ calls m1
     = calls m ++ [ GetMemory (mGetMemoryCB (this m))
                      (-1) (getFrameBufferSize camera_dev) 1 NULL ]
  /\ delivered (calls m1) = delivered (calls m)
  /\ mLastFrameTimestamp (this m1) = timestamp
  /\ run (onNextFrameAvailable consumer frame' later camera_dev) m1
     = (Returns tt, m1).
Proof.
  intros Hw Hadm Hgm Hfail Hlater. cbv zeta.
  assert (Hadm' : (Int.sub64 timestamp (mLastFrameTimestamp (this m))
                     >=? mFrameRefreshFreq (this m)) = true).
  { rewrite Z.geb_leb. apply Z.leb_le. lia. }
  rewrite result_run, !after_run.
  rewrite (onNextFrameAvailable_allocation_failure consumer frame timestamp
             camera_dev m Hw Hadm' Hgm Hfail).
  cbn [fst snd calls this].
  split; [reflexivity |]. split; [reflexivity |].
  split; [rewrite delivered_app; cbn [delivered]; apply app_nil_r |].
  split; [reflexivity |].
  apply onNextFrameAvailable_rejected.
  cbn [this set_mLastFrameTimestamp mLastFrameTimestamp mFrameRefreshFreq].
  rewrite Z.geb_leb. apply Z.leb_gt. exact Hlater.
Qed.

Lemma allocation_failure_takes_the_slot_witness :
  let m := after (setCallbacks 1 2 3 4 5 ;;
                  enableMessage CAMERA_MSG_VIDEO_FRAME ;;
                  enableVideoRecording 30) fresh in
  let failing := mk_consumer (fun _ _ _ _ _ _ => None) in
  (video_frame_wanted (this m) = true /\ mGetMemoryCB (this m) <> NULL)
  /\ run (onNextFrameAvailable failing [x02] 50000000 (mk_camera_device 1))
       (after (onNextFrameAvailable failing [x01] 40000000
                 (mk_camera_device 1)) m)
     = (Returns tt,
        after (onNextFrameAvailable failing [x01] 40000000
                 (mk_camera_device 1)) m).
Proof.
  cbv zeta.
  set (m := after (setCallbacks 1 2 3 4 5 ;;
                   enableMessage CAMERA_MSG_VIDEO_FRAME ;;
                   enableVideoRecording 30) fresh).
  set (failing := mk_consumer (fun _ _ _ _ _ _ => None)).
  assert (H1 : video_frame_wanted (this m) = true) by reflexivity.
  assert (H2 : Int.sub64 40000000 (mLastFrameTimestamp (this m))
               >= mFrameRefreshFreq (this m)) by (vm_compute; discriminate).
  assert (H3 : mGetMemoryCB (this m) <> NULL) by (vm_compute; discriminate).
  assert (H4 : no_storage
                 (request_memory failing (mGetMemoryCB (this m)) (calls m)
                    (-1) (getFrameBufferSize (mk_camera_device 1)) 1 NULL))
    by exact I.
  assert (H5 : Int.sub64 50000000 40000000 < mFrameRefreshFreq (this m))
    by reflexivity.
  split; [split; assumption |].
  exact (proj2 (proj2 (proj2 (proj2
    (allocation_failure_takes_the_slot failing [x01] [x02] 40000000 50000000
       (mk_camera_device 1) m H1 H2 H3 H4 H5))))).
Defined.

(** X11.  A delivery hands over the frame: the buffer passed to the
    timestamped-data callback is the one the allocator returned, its first
    [getFrameBufferSize] bytes are those of the frame and the bytes after
    them, like the size and the handle, are as the allocator left them. *)
Theorem delivery_carries_the_frame consumer frame timestamp camera_dev m
    buff bytes :
  video_frame_wanted (this m) = true ->
  Int.sub64 timestamp (mLastFrameTimestamp (this m))
    >= mFrameRefreshFreq (this m) ->
  mGetMemoryCB (this m) <> NULL ->
  request_memory consumer (mGetMemoryCB (this m)) (calls m)
    (-1) (getFrameBufferSize camera_dev) 1 NULL = Some buff ->
  data buff = Some bytes ->
  getFrameBufferSize camera_dev <= Z.of_nat (List.length frame) ->
  getFrameBufferSize camera_dev <= Z.of_nat (List.length bytes) ->
  let n := Z.to_nat (getFrameBufferSize camera_dev) in
  exists mem copied,
    run (onNextFrameAvailable consumer frame timestamp camera_dev) m
    = (Returns tt,
       mk_machine (set_mLastFrameTimestamp timestamp (this m))
         (calls m ++
          [ GetMemory (mGetMemoryCB (this m))
              (-1) (getFrameBufferSize camera_dev) 1 NULL;
            DataTimestamp (mDataCBTimestamp (this m)) timestamp
              CAMERA_MSG_VIDEO_FRAME mem 0 (mCBOpaque (this m)) ]))
    /\ data mem = Some copied
    /\ size mem = size buff
    /\ handle mem = handle buff
    /\ firstn n copied = firstn n frame
    /\ skipn n copied = skipn n bytes
    /\ List.length copied = List.length bytes.
Proof.
  intros Hw Hadm Hgm Hreq Hdata Hframe Hbytes n.
  assert (Hadm' : (Int.sub64 timestamp (mLastFrameTimestamp (this m))
                     >=? mFrameRefreshFreq (this m)) = true).
  { rewrite Z.geb_leb. apply Z.leb_le. lia. }
  assert (Hn1 : (n <= List.length frame)%nat) by (unfold n; lia).
  assert (Hn2 : (n <= List.length bytes)%nat) by (unfold n; lia).
  assert (Hlen : List.length (firstn n frame) = n)
    by (rewrite length_firstn; lia).
  exists (with_data buff (firstn n frame ++ skipn n bytes)),
    (firstn n frame ++ skipn n bytes).
  split.
  { apply onNextFrameAvailable_delivers; assumption. }
  split; [reflexivity |]. split; [reflexivity |]. split; [reflexivity |].
  split; [| split].
  - rewrite firstn_app, Hlen, Nat.sub_diag, firstn_firstn, Nat.min_id.
    cbn [firstn]. apply app_nil_r.
  - rewrite skipn_app, Hlen, Nat.sub_diag.
    rewrite skipn_all2 by (rewrite Hlen; lia). reflexivity.
  - rewrite length_app, Hlen, length_skipn. lia.
Qed.

Lemma delivery_carries_the_frame_witness :
  let m := after (setCallbacks 1 2 3 4 5 ;;
                  enableMessage CAMERA_MSG_VIDEO_FRAME ;;
                  enableVideoRecording 30) fresh in
  (video_frame_wanted (this m) = true /\ mGetMemoryCB (this m) <> NULL)
  /\ exists mem copied,
       data mem = Some copied
       /\ firstn 2 copied = firstn 2 [x01; x02; x03]
       /\ skipn 2 copied = skipn 2 [x00; x00]
       /\ result (onNextFrameAvailable zeroing_consumer [x01; x02; x03]
                    40000000 (mk_camera_device 2)) m
          = Returns tt.
Proof.
  cbv zeta.
  set (m := after (setCallbacks 1 2 3 4 5 ;;
                   enableMessage CAMERA_MSG_VIDEO_FRAME ;;
                   enableVideoRecording 30) fresh).
  assert (H1 : video_frame_wanted (this m) = true) by reflexivity.
  assert (H2 : Int.sub64 40000000 (mLastFrameTimestamp (this m))
               >= mFrameRefreshFreq (this m)) by (vm_compute; discriminate).
  assert (H3 : mGetMemoryCB (this m) <> NULL) by (vm_compute; discriminate).
  assert (H4 : request_memory zeroing_consumer (mGetMemoryCB (this m))
                 (calls m) (-1) (getFrameBufferSize (mk_camera_device 2)) 1 NULL
               = Some (mk_camera_memory (Some [x00; x00]) 2 0)) by reflexivity.
  assert (H5 : data (mk_camera_memory (Some [x00; x00]) 2 0)
               = Some [x00; x00]) by reflexivity.
  assert (H6 : getFrameBufferSize (mk_camera_device 2)
               <= Z.of_nat (List.length [x01; x02; x03])) by (simpl; lia).
  assert (H7 : getFrameBufferSize (mk_camera_device 2)
               <= Z.of_nat (List.length [x00; x00])) by (simpl; lia).
  split; [split; assumption |].
  destruct (delivery_carries_the_frame zeroing_consumer [x01; x02; x03]
              40000000 (mk_camera_device 2) m _ _ H1 H2 H3 H4 H5 H6 H7)
    as [mem [copied [R [D [_ [_ [F [S _]]]]]]]].
  exists mem, copied. rewrite result_run, R. repeat split; assumption.
Defined.

(** ** Ranges of the fields *)

Lemma uint32_mod (x : Z) : Int.in_uint32 x <-> x mod 2 ^ 32 = x.
Proof.
  unfold Int.in_uint32. split; intros H.
  - apply Z.mod_small. exact H.
  - rewrite <- H. apply Z.mod_pos_bound. reflexivity.
Qed.

Lemma lor_uint32 (a b : Z) :
  Int.in_uint32 a -> Int.in_uint32 b -> Int.in_uint32 (Z.lor a b).
Proof.
  intros Ha Hb. apply uint32_mod in Ha. apply uint32_mod in Hb.
  apply uint32_mod.
  rewrite <- Z.land_ones, Z.land_lor_distr_l, !Z.land_ones by lia.
  rewrite Ha, Hb. reflexivity.
Qed.

Lemma land_not32_uint32 (a b : Z) : Int.in_uint32 (Z.land a (Int.not32 b)).
Proof.
  unfold Int.not32, Int.in_uint32.
  rewrite Z.land_assoc, Z.land_ones by lia.
  apply Z.mod_pos_bound. reflexivity.
Qed.

Lemma to_int_int32 (x : Z) : Int.in_int32 (Int.to_int x).
Proof.
  unfold Int.in_int32, Int.to_int, Int.wrap_signed.
  change (2 ^ (32 - 1)) with 2147483648. change (2 ^ 31) with 2147483648.
  change (2 ^ 32) with 4294967296.
  pose proof (Z.mod_pos_bound (x + 2147483648) 4294967296). lia.
Qed.

Lemma interval_bounds (fps : Z) :
  fps <> 0 -> - 1000000000 <= Z.quot 1000000000 fps <= 1000000000.
Proof.
  intros Hfps.
  assert (P : forall p, 0 < p -> 0 <= Z.quot 1000000000 p <= 1000000000).
  { intros p Hp. split; [apply Z.quot_pos; lia |].
    apply Z.le_trans with (Z.quot 1000000000 1).
    - apply Z.quot_le_compat_l; lia.
    - rewrite Z.quot_1_r. lia. }
  destruct (Z.lt_ge_cases 0 fps) as [Hpos | Hneg].
  - specialize (P fps Hpos). lia.
  - rewrite <- (Z.opp_involutive fps), Z.quot_opp_r by lia.
    specialize (P (- fps)). lia.
Qed.

(** X12.  Every member function keeps the fields within their C++ types:
    the mask in [uint32_t], the reference timestamp and the interval in
    [nsecs_t].  This holds from the constructor on, for message sets in
    [uint32_t] and timestamps in [nsecs_t], for every frame rate (zero
    included, where the call stops in the division) and every outcome of
    the dispatcher; the query's answer is an [int]. *)
Theorem member_functions_keep_types (m : Machine) :
  well_typed (this m) ->
  well_typed CallbackNotifier_ctor
  /\ (forall notify_cb data_cb data_cb_timestamp get_memory user,
        well_typed
          (this (after (setCallbacks notify_cb data_cb data_cb_timestamp
                          get_memory user) m)))
  /\ (forall msg_type, Int.in_uint32 msg_type ->
        well_typed (this (after (enableMessage msg_type) m)))
  /\ (forall msg_type, well_typed (this (after (disableMessage msg_type) m)))
  /\ (forall msg_type, exists answer,
        result (isMessageEnabled msg_type) m = Returns answer
        /\ Int.in_int32 answer)
  /\ (forall fps, well_typed (this (after (enableVideoRecording fps) m)))
  /\ well_typed (this (after disableVideoRecording m))
  /\ well_typed (this (after cleanupCBNotifier m))
  /\ (forall consumer frame timestamp camera_dev,
        Int.in_int64 timestamp ->
        well_typed
          (this (after (onNextFrameAvailable consumer frame timestamp
                          camera_dev) m))).
Proof.
  intros [Hmask [Hlast Hfreq]].
  assert (Z0 : Int.in_int64 0) by (unfold Int.in_int64; lia).
  assert (U0 : Int.in_uint32 0) by (unfold Int.in_uint32; lia).
  split; [split; [exact U0 | split; exact Z0] |].
  split; [intros; split; [| split]; assumption |].
  split.
  { intros msg_type Hmsg. split; [| split; assumption].
    apply lor_uint32; assumption. }
  split.
  { intros msg_type. split; [| split; assumption]. apply land_not32_uint32. }
  split.
  { intros msg_type. eexists. split; [reflexivity | apply to_int_int32]. }
  split.
  { intros fps. destruct (Z.eq_dec fps 0) as [-> | Hfps].
    - rewrite after_run, run_enableVideoRecording_zero.
      split; [| split]; assumption.
    - rewrite after_run, run_enableVideoRecording by exact Hfps.
      split; [assumption | split; [assumption |]].
      pose proof (interval_bounds fps Hfps).
      unfold Int.in_int64. cbn. lia. }
  split; [split; [| split]; assumption |].
  split; [split; [| split]; assumption |].
  intros consumer frame timestamp camera_dev Hts.
  destruct (onNextFrameAvailable_cases consumer frame timestamp camera_dev m)
    as [[E _] | [_ [_ [T _]]]].
  - rewrite after_run, E. split; [| split]; assumption.
  - rewrite T. split; [| split]; assumption.
Qed.

Lemma member_functions_keep_types_witness :
  well_typed (this fresh)
  /\ well_typed (this (after (enableVideoRecording 30) fresh)).
Proof.
  assert (H : well_typed (this fresh)).
  { unfold well_typed, Int.in_uint32, Int.in_int64. simpl. lia. }
  split; [exact H |].
  apply (proj1 (proj2 (proj2 (proj2 (proj2 (proj2
           (member_functions_keep_types fresh H))))))).
Defined.

(** ** More on the message mask *)

(** X13.  What [isMessageEnabled] tests: it answers true exactly when the
    mask has a bit set that is not among the requested ones.  The
    requested bits themselves have no influence on the answer. *)
Theorem isMessageEnabled_tests_other_bits (bits : Z) (m : Machine) :
  Int.in_uint32 (mMessageEnabler (this m)) ->
  (answers_true (result (isMessageEnabled bits) m)
   <-> exists i, 0 <= i < 32
                 /\ Z.testbit (mMessageEnabler (this m)) i = true
                 /\ Z.testbit bits i = false).
Proof.
  intros Hmask. rewrite (isMessageEnabled_answers bits m Hmask).
  pose proof (land_not32_uint32 (mMessageEnabler (this m)) bits) as R.
  split.
  - intros Hne.
    assert (Hpos : 0 < Z.land (mMessageEnabler (this m)) (Int.not32 bits))
      by (unfold Int.in_uint32 in R; lia).
    pose proof (Z.bit_log2 _ Hpos) as B.
    pose proof (Z.log2_nonneg
                  (Z.land (mMessageEnabler (this m)) (Int.not32 bits))) as L.
    rewrite Z.land_spec, not32_spec in B by exact L.
    apply andb_true_iff in B. destruct B as [B1 B2].
    apply andb_true_iff in B2. destruct B2 as [B2 B3].
    apply negb_true_iff in B2. apply Z.ltb_lt in B3.
    eexists. split; [split; [exact L | exact B3] |]. split; assumption.
  - intros [i [[Hi0 Hi32] [B1 B2]]] Z0.
    assert (B : Z.testbit (Z.land (mMessageEnabler (this m)) (Int.not32 bits)) i
                = true).
    { rewrite Z.land_spec, not32_spec, B1, B2 by exact Hi0.
      apply Z.ltb_lt in Hi32. rewrite Hi32. reflexivity. }
    rewrite Z0, Z.bits_0 in B. discriminate.
Qed.

Lemma isMessageEnabled_tests_other_bits_witness :
  Int.in_uint32 (mMessageEnabler (this (after (enableMessage 1) fresh)))
  /\ answers_true
       (result (isMessageEnabled CAMERA_MSG_VIDEO_FRAME)
          (after (enableMessage 1) fresh)).
Proof.
  assert (H : Int.in_uint32
                (mMessageEnabler (this (after (enableMessage 1) fresh)))).
  { unfold Int.in_uint32. simpl. lia. }
  split; [exact H |].
  apply (proj2 (isMessageEnabled_tests_other_bits CAMERA_MSG_VIDEO_FRAME
                  (after (enableMessage 1) fresh) H)).
  exists 0. split; [lia |]. split; reflexivity.
Defined.

Lemma not32_lor (a b : Z) :
  Int.not32 (Z.lor a b) = Z.land (Int.not32 a) (Int.not32 b).
Proof.
  apply Z.bits_inj'. intros i Hi.
  rewrite Z.land_spec, !not32_spec, Z.lor_spec by exact Hi.
  destruct (Z.testbit a i), (Z.testbit b i), (i <? 32); reflexivity.
Qed.

(** X14.  [enableMessage b] sets every bit of [b] in the mask and
    [disableMessage b] clears every bit of [b]; both return normally, make
    no call, and change no field but the mask. *)
Theorem enableMessage_sets_disableMessage_clears (b : Z) (m : Machine) :
  let on := after (enableMessage b) m in
  let off := after (disableMessage b) m in
  (result (enableMessage b) m = Returns tt
   /\ result (disableMessage b) m = Returns tt)
  /\ (forall i, Z.testbit b i = true ->
        Z.testbit (mMessageEnabler (this on)) i = true
        /\ Z.testbit (mMessageEnabler (this off)) i = false)
  /\ (this on = set_mMessageEnabler (mMessageEnabler (this on)) (this m)
      /\ calls on = calls m)
  /\ (this off = set_mMessageEnabler (mMessageEnabler (this off)) (this m)
      /\ calls off = calls m).
Proof.
  cbv zeta. rewrite !result_run, !after_run, run_enableMessage,
    run_disableMessage.
  cbn [fst snd this calls set_mMessageEnabler mMessageEnabler].
  split; [split; reflexivity |].
  split; [| split; split; reflexivity].
  intros i Hb.
  assert (Hi : 0 <= i).
  { destruct (Z.neg_nonneg_cases i) as [Hneg | Hi]; [| exact Hi].
    rewrite Z.testbit_neg_r in Hb by exact Hneg. discriminate. }
  split.
  - rewrite Z.lor_spec, Hb. apply orb_true_r.
  - rewrite Z.land_spec, not32_spec, Hb by exact Hi. apply andb_false_r.
Qed.

(** X15.  Calls of [enableMessage] merge: enabling [a] and then [b] is
    enabling [a | b], in either order, and enabling twice is enabling once.
    The same holds for [disableMessage]. *)
Theorem mask_updates_merge (a b : Z) (m : Machine) :
  (run (enableMessage a ;; enableMessage b) m
   = run (enableMessage (Z.lor a b)) m
   /\ run (enableMessage a ;; enableMessage b) m
      = run (enableMessage b ;; enableMessage a) m
   /\ run (enableMessage a ;; enableMessage a) m = run (enableMessage a) m)
  /\ (run (disableMessage a ;; disableMessage b) m
      = run (disableMessage (Z.lor a b)) m
      /\ run (disableMessage a ;; disableMessage b) m
         = run (disableMessage b ;; disableMessage a) m
      /\ run (disableMessage a ;; disableMessage a) m
         = run (disableMessage a) m).
Proof.
  assert (En : forall x y,
            run (enableMessage x ;; enableMessage y) m
            = run (enableMessage (Z.lor x y)) m).
  { intros x y. rewrite run_bind, !run_enableMessage.
    cbn [this calls set_mMessageEnabler mMessageEnabler].
    rewrite <- Z.lor_assoc. reflexivity. }
  assert (Dis : forall x y,
            run (disableMessage x ;; disableMessage y) m
            = run (disableMessage (Z.lor x y)) m).
  { intros x y. rewrite run_bind, !run_disableMessage.
    cbn [this calls set_mMessageEnabler mMessageEnabler].
    rewrite not32_lor, Z.land_assoc. reflexivity. }
  split; (split; [| split]).
  - apply En.
  - rewrite !En, (Z.lor_comm a b). reflexivity.
  - rewrite En, Z.lor_diag. reflexivity.
  - apply Dis.
  - rewrite !Dis, (Z.lor_comm a b). reflexivity.
  - rewrite Dis, Z.lor_diag. reflexivity.
Qed.

(** ** The callback set and the recording switch *)

(** X16.  [setCallbacks] replaces all five slots and nothing else, so of two
    calls the last one wins and the pacing state survives a swap.  Clearing
    the set, [setCallbacks(NULL, NULL, NULL, NULL, NULL)], silences the
    dispatcher: any sequence of frames goes by without a call or a change,
    whatever the mask and the recording state. *)
Theorem setCallbacks_replaces_the_set
    (notify_cb data_cb data_cb_timestamp get_memory user : pointer)
    (notify_cb' data_cb' data_cb_timestamp' get_memory' user' : pointer)
    consumer camera_dev frames (m : Machine) :
  let m1 := after (setCallbacks notify_cb data_cb data_cb_timestamp
                     get_memory user) m in
  let cleared := after (setCallbacks NULL NULL NULL NULL NULL) m in
  run (setCallbacks notify_cb' data_cb' data_cb_timestamp' get_memory' user' ;;
       setCallbacks notify_cb data_cb data_cb_timestamp get_memory user) m
  = run (setCallbacks notify_cb data_cb data_cb_timestamp get_memory user) m
  /\ this m1
     = mkCallbackNotifier notify_cb data_cb data_cb_timestamp get_memory user
         (mLastFrameTimestamp (this m)) (mFrameRefreshFreq (this m))
         (mMessageEnabler (this m)) (mVideoRecEnabled (this m))
  /\ calls m1 = calls m
  /\ run (onFrames consumer camera_dev frames) cleared = (Returns tt, cleared).
Proof.
  cbv zeta. repeat split.
  apply onFrames_unwanted. unfold video_frame_wanted.
  change (mDataCBTimestamp
            (this (after (setCallbacks NULL NULL NULL NULL NULL) m)))
    with NULL.
  change (NULL =? NULL) with true. cbn [negb].
  rewrite andb_false_r. reflexivity.
Qed.

(** X17.  [disableVideoRecording] stops delivery from any state: the
    recording flag reads false, reference timestamp and interval are 0, and
    any sequence of frames goes by without a call or a change.  The mask and
    the callback set are kept. *)
Theorem disableVideoRecording_stops_delivery consumer camera_dev frames
    (m : Machine) :
  let m1 := after disableVideoRecording m in
  result disableVideoRecording m = Returns tt
  /\ result isVideoRecordingEnabled m1 = Returns false
  /\ this m1
     = mkCallbackNotifier (mNotifyCB (this m)) (mDataCB (this m))
         (mDataCBTimestamp (this m)) (mGetMemoryCB (this m))
         (mCBOpaque (this m)) 0 0 (mMessageEnabler (this m)) false
  /\ calls m1 = calls m
  /\ run (onFrames consumer camera_dev frames) m1 = (Returns tt, m1).
Proof.
  cbv zeta. repeat split.
  apply onFrames_unwanted. unfold video_frame_wanted.
  change (mVideoRecEnabled (this (after disableVideoRecording m)))
    with false.
  apply andb_false_r.
Qed.

(** X18.  For a rate other than 0, [enableVideoRecording] makes
    [isVideoRecordingEnabled] answer true and sets the gate to a state that
    depends on the rate only, not on what the gate held before; a following
    [disableVideoRecording] undoes it, leaving the object as
    [disableVideoRecording] alone would. *)
Theorem enableVideoRecording_restarts_the_gate (fps : Z) (m : Machine) :
  fps <> 0 ->
  let m1 := after (enableVideoRecording fps) m in
  result (enableVideoRecording fps) m = Returns NO_ERROR
  /\ result isVideoRecordingEnabled m1 = Returns true
  /\ mLastFrameTimestamp (this m1) = 0
  /\ mFrameRefreshFreq (this m1)
     = mFrameRefreshFreq (this (after (enableVideoRecording fps) fresh))
  /\ run (enableVideoRecording fps ;; disableVideoRecording) m
     = run disableVideoRecording m.
Proof.
  intros Hfps. cbv zeta.
  rewrite run_bind, !result_run, !after_run, !run_enableVideoRecording
    by exact Hfps.
  repeat split.
Qed.

Lemma enableVideoRecording_restarts_the_gate_witness :
  30 <> 0
  /\ result isVideoRecordingEnabled (after (enableVideoRecording 30) fresh)
     = Returns true.
Proof.
  assert (H : 30 <> 0) by lia.
  split; [exact H |].
  apply (proj1 (proj2 (enableVideoRecording_restarts_the_gate 30 fresh H))).
Defined.

(** X19.  For a positive rate the interval stored by
    [enableVideoRecording] is the whole number of nanoseconds per frame:
    [interval * fps <= 1000000000 < (interval + 1) * fps].  It lies between
    0 and 1000000000, is at least 1 for rates up to 1000000000 and is 0
    for higher rates. *)
Theorem frame_interval_bounds (fps : Z) (m : Machine) :
  0 < fps ->
  let interval := mFrameRefreshFreq (this (after (enableVideoRecording fps) m)) in
  0 <= interval <= 1000000000
  /\ interval * fps <= 1000000000 < (interval + 1) * fps
  /\ (fps <= 1000000000 -> 1 <= interval)
  /\ (1000000000 < fps -> interval = 0).
Proof.
  intros Hfps. cbv zeta.
  rewrite after_run, run_enableVideoRecording by lia.
  cbn [snd this set_mFrameRefreshFreq mFrameRefreshFreq].
  rewrite Z.quot_div_nonneg by lia.
  pose proof (Z.mul_div_le 1000000000 fps Hfps) as Hlo.
  pose proof (Z.mul_succ_div_gt 1000000000 fps Hfps) as Hhi.
  pose proof (Z.div_pos 1000000000 fps) as Hpos.
  assert (Hq : 0 <= 1000000000 / fps) by (apply Hpos; lia).
  split; [split; [exact Hq | nia] |].
  split; [split; [lia | lia] |].
  split.
  - intros Hle. pose proof (Z.div_str_pos 1000000000 fps). lia.
  - intros Hgt. apply Z.div_small. lia.
Qed.

Lemma frame_interval_bounds_witness :
  0 < 30
  /\ 0 <= mFrameRefreshFreq (this (after (enableVideoRecording 30) fresh))
     <= 1000000000.
Proof.
  assert (H : 0 < 30) by lia.
  split; [exact H |].
  apply (proj1 (frame_interval_bounds 30 fresh H)).
Defined.

(** ** Faults of the dispatcher *)

(** X20.  The dispatcher calls through a null pointer in exactly one
    situation: the video-frame bit is set, the timestamped-data callback is
    installed, recording is enabled, the gate admits the timestamp, and the
    allocator pointer is null. *)
Theorem null_call_iff consumer frame timestamp camera_dev m :
  result (onNextFrameAvailable consumer frame timestamp camera_dev) m
  = Faults NullFunctionCall
  <-> (video_frame_wanted (this m) = true
       /\ Int.sub64 timestamp (mLastFrameTimestamp (this m))
          >= mFrameRefreshFreq (this m)
       /\ mGetMemoryCB (this m) = NULL).
Proof.
  destruct (video_frame_wanted (this m)) eqn:Hw.
  2:{ rewrite result_run, onNextFrameAvailable_unwanted by exact Hw.
      split; [discriminate | intros [H _]; discriminate]. }
  destruct (Int.sub64 timestamp (mLastFrameTimestamp (this m))
              >=? mFrameRefreshFreq (this m)) eqn:Hadm.
  2:{ rewrite result_run, onNextFrameAvailable_rejected by exact Hadm.
      rewrite Z.geb_leb in Hadm. apply Z.leb_gt in Hadm.
      split; [discriminate | intros [_ [H _]]; lia]. }
  assert (Hge : Int.sub64 timestamp (mLastFrameTimestamp (this m))
                >= mFrameRefreshFreq (this m)).
  { rewrite Z.geb_leb in Hadm. apply Z.leb_le in Hadm. lia. }
  destruct (video_frame_wanted_true _ Hw) as [_ [Hcb _]].
  apply Z.eqb_neq in Hcb.
  unfold result, onNextFrameAvailable, isNewVideoFrameTime, call_mGetMemoryCB,
    call_mDataCBTimestamp, memcpy.
  member_unfold. simpl. rewrite Hw, Hadm. simpl.
  destruct (Z.eqb_spec (mGetMemoryCB (this m)) NULL) as [Hgm | Hgm]; simpl.
  - split; auto.
  - split; [| intros [_ [_ H]]; contradiction].
    destruct (request_memory consumer (mGetMemoryCB (this m)) (calls m)
                (-1) (getFrameBufferSize camera_dev) 1 NULL) as [buff |];
      simpl; [| discriminate].
    destruct (data buff) as [bytes |]; simpl; [| discriminate].
    destruct ((getFrameBufferSize camera_dev <=? Z.of_nat (List.length frame))
              && (getFrameBufferSize camera_dev <=? Z.of_nat (List.length bytes)));
      simpl; [| discriminate].
    rewrite Hcb. simpl. discriminate.
Qed.

(** X21.  With a non-null allocator pointer, a frame holding at least
    [getFrameBufferSize] bytes and an allocator whose buffers, when they
    have storage, hold as many, the dispatcher returns normally, whatever
    the mask, the gate and the allocator's answer. *)
Theorem dispatcher_returns consumer frame timestamp camera_dev m :
  mGetMemoryCB (this m) <> NULL ->
  getFrameBufferSize camera_dev <= Z.of_nat (List.length frame) ->
  (forall buff bytes,
     request_memory consumer (mGetMemoryCB (this m)) (calls m)
       (-1) (getFrameBufferSize camera_dev) 1 NULL = Some buff ->
     data buff = Some bytes ->
     getFrameBufferSize camera_dev <= Z.of_nat (List.length bytes)) ->
  result (onNextFrameAvailable consumer frame timestamp camera_dev) m
  = Returns tt.
Proof.
  intros Hgm Hframe Hbuf.
  destruct (video_frame_wanted (this m)) eqn:Hw.
  2:{ rewrite result_run, onNextFrameAvailable_unwanted by exact Hw.
      reflexivity. }
  destruct (Int.sub64 timestamp (mLastFrameTimestamp (this m))
              >=? mFrameRefreshFreq (this m)) eqn:Hadm.
  2:{ rewrite result_run, onNextFrameAvailable_rejected by exact Hadm.
      reflexivity. }
  destruct (request_memory consumer (mGetMemoryCB (this m)) (calls m)
              (-1) (getFrameBufferSize camera_dev) 1 NULL) as [buff |] eqn:Hreq.
  2:{ rewrite result_run, onNextFrameAvailable_allocation_failure;
        try assumption; [reflexivity |]. rewrite Hreq. exact I. }
  destruct (data buff) as [bytes |] eqn:Hdata.
  2:{ rewrite result_run, onNextFrameAvailable_allocation_failure;
        try assumption; [reflexivity |]. rewrite Hreq. exact Hdata. }
  rewrite result_run,
    (onNextFrameAvailable_delivers consumer frame timestamp camera_dev m
       buff bytes); try assumption; [reflexivity |].
  apply (Hbuf buff bytes); first [assumption | reflexivity].
Qed.

Lemma dispatcher_returns_witness :
  let m := after (setCallbacks 1 2 3 4 5 ;;
                  enableMessage CAMERA_MSG_VIDEO_FRAME ;;
                  enableVideoRecording 30) fresh in
  mGetMemoryCB (this m) <> NULL
  /\ result (onNextFrameAvailable zeroing_consumer [x01; x02] 40000000
               (mk_camera_device 2)) m
     = Returns tt.
Proof.
  cbv zeta.
  set (m := after (setCallbacks 1 2 3 4 5 ;;
                   enableMessage CAMERA_MSG_VIDEO_FRAME ;;
                   enableVideoRecording 30) fresh).
  assert (H1 : mGetMemoryCB (this m) <> NULL) by (vm_compute; discriminate).
  assert (H2 : getFrameBufferSize (mk_camera_device 2)
               <= Z.of_nat (List.length [x01; x02])) by (simpl; lia).
  split; [exact H1 |].
  apply (dispatcher_returns zeroing_consumer [x01; x02] 40000000
           (mk_camera_device 2) m H1 H2).
  intros buff bytes Hreq Hdata.
  vm_compute in Hreq. injection Hreq as <-.
  vm_compute in Hdata. injection Hdata as <-.
  simpl. lia.
Defined.
